(** * MASLD Results Viewer: the filtering, aggregation, validation and
      demo-loading core and the session logic of the pages, embedded from
      [data_loader.py], [utils.py], [app.py] and [ui.py].

    The viewer is Python over pandas and numpy.  The embedding keeps the
    Python values as they are at run time:
    - a Python [float] is an IEEE-754 binary64 number, here Rocq's primitive
      [float] (same format, same comparison results, one NaN);
    - a [DataFrame] holding the case index is the sequence of its rows, each
      row a record with the columns of [index.csv];
    - [None] is [None] of [option]; an exception is the [Raise] branch of
      the result type [Py];
    - numpy's global generator is a state threaded through the calls;
    - the file system is a record of the observations the code makes on it. *)

Set Warnings "-notation-overridden,-inexact-float,-ambiguous-paths,-deprecated,-redundant-canonical-projection".
From Stdlib Require Import ZArith String Ascii DecimalString Floats Uint63 Lia.
From HB Require Import structures.
From mathcomp Require Import ssreflect ssrfun ssrbool eqtype ssrnat seq path.

Set Implicit Arguments.
Unset Strict Implicit.
Unset Printing Implicit Defensive.

Local Open Scope string_scope.
Local Open Scope seq_scope.

(** ** Python values *)

(** Decidable equality on the column types, so that [Series.isin] is list
    membership and rows can be compared. *)

Definition Z_eqP : Equality.axiom Z.eqb :=
  fun x y => iffP idP (proj1 (Z.eqb_eq x y)) (proj2 (Z.eqb_eq x y)).
HB.instance Definition _ := hasDecEq.Build Z Z_eqP.

Definition string_eqP : Equality.axiom String.eqb :=
  fun x y => iffP idP (proj1 (String.eqb_eq x y)) (proj2 (String.eqb_eq x y)).
HB.instance Definition _ := hasDecEq.Build string string_eqP.

Definition ascii_eqP : Equality.axiom Ascii.eqb :=
  fun x y => iffP idP (proj1 (Ascii.eqb_eq x y)) (proj2 (Ascii.eqb_eq x y)).
HB.instance Definition _ := hasDecEq.Build ascii ascii_eqP.

Definition float_eqP : Equality.axiom PrimFloat.Leibniz.eqb :=
  fun x y => iffP idP (proj1 (FloatAxioms.Leibniz.eqb_spec x y))
                      (proj2 (FloatAxioms.Leibniz.eqb_spec x y)).
HB.instance Definition _ := hasDecEq.Build float float_eqP.

(** Python's comparison operators on floats.  [x >= y] holds exactly when
    [y <= x] does; every comparison with NaN is false. *)
Definition fle (x y : float) : bool := PrimFloat.leb x y.
Definition fge (x y : float) : bool := PrimFloat.leb y x.
Definition flt (x y : float) : bool := PrimFloat.ltb x y.
Definition fgt (x y : float) : bool := PrimFloat.ltb y x.

(** NaN on the decoded form of a float. *)
Definition sf_is_nan (a : spec_float) : bool :=
  if a is S754_nan then true else false.

(** [float(n)] for a non-negative Python int. *)
Definition float_of_nat (n : nat) : float :=
  PrimFloat.of_uint63 (Uint63.of_Z (Z.of_nat n)).

(** Exceptions the embedded code can raise, and results of fallible calls. *)
Inductive PyExn : Type :=
  | AttributeError   (* attribute access on None *)
  | ValueError       (* DataFrame built from columns of unequal length *)
  | OSError          (* a read that fails *)
  | ParseError       (* pandas / json parse errors *)
  | ReError.         (* re.error: a search term that is not a regular expression *)

Inductive Py (A : Type) : Type :=
  | Ok of A
  | Raise of PyExn.
Arguments Raise {A} _.

(** [try: return f() except Exception: return None] *)
Definition try_or_None {A : Type} (r : Py A) : option A :=
  match r with Ok a => Some a | Raise _ => None end.

(** [str(i)] and [f"{i:02d}"] for a non-negative int. *)
Definition str (i : nat) : string := NilEmpty.string_of_uint (Nat.to_uint i).
Definition fmt_02d (i : nat) : string :=
  if String.length (str i) < 2 then ("0" ++ str i)%string else str i.

(** ** pathlib paths and the file system *)

(** A resolved [Path] is the sequence of its components.  [root / rel]
    appends the components of the relative string [rel]. *)
Definition Path : Type := seq string.

Fixpoint components (cur : string) (s : string) : seq string :=
  match s with
  | EmptyString => if cur is EmptyString then [::] else [:: cur]
  | String c s' =>
      if Ascii.eqb c "/"%char
      then (if cur is EmptyString then components "" s'
            else cur :: components "" s')
      else components (cur ++ String c "")%string s'
  end.

Definition pjoin (p : Path) (rel : string) : Path := p ++ components "" rel.
Infix "//" := pjoin (at level 40, left associativity).

(** [PurePosixPath(s).is_absolute()] on a name given as a string. *)
Definition is_absolute (s : string) : bool :=
  if s is String c _ then Ascii.eqb c "/"%char else false.

(** ** The case index *)

(** One row of [index.csv] (and of the demo frame, which adds [patient_id]).
    Every row carries every column, so the guards ['col' in df.columns] of
    the pages are true throughout. *)
Record Row : Type := mkRow {
  case_id : string;
  patient_id : string;
  fold : Z;
  y_true : Z;
  p_calibrated : float;
  uncertainty_std : float;
  risk_band : string
}.

Definition Row_to_tuple (r : Row) :=
  (case_id r, patient_id r, fold r, y_true r, p_calibrated r,
   uncertainty_std r, risk_band r).
Definition tuple_to_Row t : Row :=
  let: (c, pid, f, y, p, u, b) := t in mkRow c pid f y p u b.
Definition Row_tupleK : cancel Row_to_tuple tuple_to_Row :=
  fun r => let: mkRow _ _ _ _ _ _ _ := r in erefl.
HB.instance Definition _ := Equality.copy Row (can_type Row_tupleK).

Definition DataFrame : Type := seq Row.

(** [pd.DataFrame({...})] from the seven columns: pandas raises
    [ValueError] unless all columns have the same length. *)
Definition DataFrame_of_columns
    (case_ids patient_ids : seq string) (folds y_trues : seq Z)
    (p_calibrateds uncertainty_stds : seq float) (risk_bands : seq string)
    : Py DataFrame :=
  let n := size case_ids in
  if [&& size patient_ids == n, size folds == n, size y_trues == n,
         size p_calibrateds == n, size uncertainty_stds == n
       & size risk_bands == n]
  then Ok [seq tuple_to_Row t
          | t <- zip (zip (zip (zip (zip (zip case_ids patient_ids) folds)
                    y_trues) p_calibrateds) uncertainty_stds) risk_bands]
  else Raise ValueError.

(** The auxiliary artifacts are passed through for display only. *)
Definition CaseMapping : Type := seq (string * string).
Definition MetricsSummary : Type := seq (seq (string * float)).
Definition RunConfig : Type := seq (string * string).

(** What the loader observes of the file system under a root.  Every
    probe is answered: [Path.exists()] is a boolean here.  (On a path the
    operating system refuses, such as a component longer than the file
    system allows, [exists()] raises [OSError] instead; the loaders call
    it outside their [try], so on such a root they raise.  Statements
    below are about roots whose probes are answered.) *)
Record FileSystem : Type := mkFS {
  fs_exists : Path -> bool;                       (* Path.exists() *)
  fs_glob : Path -> string -> seq Path;           (* Path.glob(pattern) *)
  fs_read_index : Path -> Py DataFrame;           (* pd.read_csv, index *)
  fs_read_mapping : Path -> Py CaseMapping;       (* pd.read_csv, mapping *)
  fs_read_metrics : Path -> Py MetricsSummary;    (* pd.read_csv, metrics *)
  fs_json_load : Path -> Py RunConfig             (* json.load(open(...)) *)
}.

(** ** numpy's legacy global generator *)

(** [np.random.*] reads and replaces one global state.  A generator is any
    implementation of the calls the code makes; each is a function of the
    state.  A draw with [size=n] is [n] successive draws. *)
Record RandomGen : Type := mkGen {
  rng_state : Type;
  rng_seed : Z -> rng_state;                                      (* seed(k) *)
  rng_choice : seq Z -> option (seq float) -> rng_state -> Z * rng_state;
  rng_beta : float -> float -> rng_state -> float * rng_state;
  rng_uniform : float -> float -> rng_state -> float * rng_state;
  rng_random : rng_state -> float * rng_state
}.
Arguments rng_choice : clear implicits.
Arguments rng_beta : clear implicits.
Arguments rng_uniform : clear implicits.
Arguments rng_random : clear implicits.

Fixpoint draws {S A : Type} (draw : S -> A * S) (n : nat) (s : S) : seq A * S :=
  if n is n'.+1 then
    let: (x, s1) := draw s in
    let: (xs, s2) := draws draw n' s1 in
    (x :: xs, s2)
  else ([::], s).
Arguments draws {S A} draw n s : simpl never.

(** ** pandas operations used by the viewer *)

(** [Series.mean()], pandas' [nanmean]: NaN entries are skipped, the sum is
    divided by the number of remaining values, and the result is NaN when
    none remains.  (The order in which numpy adds the values is not
    modelled beyond a left-to-right sum.) *)
Definition Series_mean (s : seq float) : float :=
  let values := [seq x <- s | ~~ PrimFloat.is_nan x] in
  let count := size values in
  if 0 < count
  then PrimFloat.div (foldl PrimFloat.add 0%float values) (float_of_nat count)
  else PrimFloat.nan.

(** [Series.sum()] and [(Series == v).sum()] on an int column. *)
Definition Series_sum (s : seq Z) : Z := foldl Z.add 0%Z s.

(** [Series.value_counts().to_dict()]: each distinct value with its number
    of occurrences, most frequent first. *)
Definition value_counts (s : seq string) : seq (string * nat) :=
  sort (fun a b => b.2 <= a.2) [seq (v, count_mem v s) | v <- undup s].

(** [>=] on the values of a column: the order of a descending sort. *)
Definition desc_by (key : Row -> float) : rel Row :=
  fun r1 r2 => fge (key r1) (key r2).

(** Modelled from the spec: pandas' [DataFrame.nlargest(n, column)], which
    [page_dashboard] calls for its two top-5 tables and which is not part
    of the repository.  The spec's [topN(view, field, n)]: the records
    ordered descending by the field's value, ties broken by original order
    (a stable sort), all of them when fewer than [n] exist.  Rows whose
    value is missing (NaN) have no place in a descending order; as in
    pandas they come after the others, in their original order. *)
Definition nlargest (n : nat) (key : Row -> float) (df : DataFrame) : DataFrame :=
  let dropped := [seq r <- df | ~~ PrimFloat.is_nan (key r)] in
  let nan_rows := [seq r <- df | PrimFloat.is_nan (key r)] in
  take n (sort (desc_by key) dropped ++ nan_rows).

(** ** data_loader.py *)

Module DataLoader.

(** [validate_results_structure(results_root)] *)
Definition required : seq string :=
  [:: "explainability_reports/index.csv";
      "explainability_reports/case_mapping.csv"].

Definition validate_results_structure (fs : FileSystem) (results_root : Path)
    : bool * seq string :=
  let missing :=
    foldl (fun missing req =>
             let path := results_root // req in
             if ~~ fs_exists fs path then rcons missing req else missing)
          [::] required in
  (size missing == 0, missing).

(** The four best-effort loaders: an absent file or a failed read is [None]. *)
Definition load_index_csv (fs : FileSystem) (results_root : Path)
    : option DataFrame :=
  let index_path := results_root // "explainability_reports" // "index.csv" in
  if ~~ fs_exists fs index_path then None
  else try_or_None (fs_read_index fs index_path).

Definition load_case_mapping (fs : FileSystem) (results_root : Path)
    : option CaseMapping :=
  let mapping_path :=
    results_root // "explainability_reports" // "case_mapping.csv" in
  if ~~ fs_exists fs mapping_path then None
  else try_or_None (fs_read_mapping fs mapping_path).

Definition load_metrics_summary (fs : FileSystem) (results_root : Path)
    : option MetricsSummary :=
  let metrics_path := results_root // "patient_metrics_summary.csv" in
  if ~~ fs_exists fs metrics_path then None
  else try_or_None (fs_read_metrics fs metrics_path).

Definition load_run_config (fs : FileSystem) (results_root : Path)
    : option RunConfig :=
  let config_path := results_root // "run_config.json" in
  if ~~ fs_exists fs config_path then None
  else try_or_None (fs_json_load fs config_path).

(** Values of the [artifacts] dict: flags and one count. *)
Inductive ArtVal : Type := Flag of bool | Count of nat.

Definition check_artifacts (fs : FileSystem) (results_root : Path)
    : seq (string * ArtVal) :=
  let ex p := fs_exists fs p in
  let artifacts :=
    [:: ("index_csv", Flag (ex (results_root // "explainability_reports" // "index.csv")));
        ("case_mapping", Flag (ex (results_root // "explainability_reports" // "case_mapping.csv")));
        ("metrics_summary", Flag (ex (results_root // "patient_metrics_summary.csv")));
        ("run_config", Flag (ex (results_root // "run_config.json")));
        ("calibration_plots",
           Flag (ex (results_root // "calibration_plots")
                 && (0 < size (fs_glob fs (results_root // "calibration_plots") "*.png"))));
        ("roc_curves", Flag (ex (results_root // "roc_curves_patient_level.png")));
        ("pr_curves", Flag (ex (results_root // "pr_curves_patient_level.png")));
        ("confusion_matrix", Flag (ex (results_root // "confusion_matrices_patient_level.png")))] in
  let explain_dir := results_root // "explainability_reports" in
  if ex explain_dir then
    let case_images := fs_glob fs explain_dir "Case-*.png" in
    artifacts ++ [:: ("case_images", Flag (0 < size case_images));
                     ("case_image_count", Count (size case_images))]
  else
    artifacts ++ [:: ("case_images", Flag false);
                     ("case_image_count", Count 0)].

(** [generate_demo_data()]: the incoming global generator state is replaced
    by [seed(42)] before anything is drawn. *)
Definition band_of (p : float) : string :=
  if flt p 0.3 then "LOW"
  else if flt p 0.5 then "LOW-MOD"
  else if flt p 0.75 then "MODERATE"
  else "HIGH".

Section Demo.
Variable G : RandomGen.

Definition generate_demo_data (st0 : rng_state G) : Py DataFrame * rng_state G :=
  let st := rng_seed G 42 in
  let n_cases := 25 in
  let case_ids := [seq ("Case-" ++ fmt_02d i)%string | i <- iota 1 n_cases] in
  let: (folds, st) := draws (rng_choice G [:: 0; 1; 2]%Z None) n_cases st in
  let: (y_true, st) :=
    draws (rng_choice G [:: 0; 1]%Z (Some [:: 0.15%float; 0.85%float])) n_cases st in
  let: (p_calibrated, st) := draws (rng_beta G 3%float 4%float) n_cases st in
  let: (uncertainty_std, st) := draws (rng_uniform G 0.02%float 0.15%float) n_cases st in
  let risk_bands :=
    foldl (fun risk_bands p => rcons risk_bands (band_of p)) [::] p_calibrated in
  (DataFrame_of_columns
     case_ids [seq ("DEMO-" ++ str i)%string | i <- iota 1 n_cases]
     folds y_true p_calibrated uncertainty_std risk_bands,
   st).

(** [load_all_data(results_root, demo_mode)] *)
Record Bundle : Type := mkBundle {
  index_df : option DataFrame;
  case_mapping : option CaseMapping;
  metrics_summary : option MetricsSummary;
  run_config : option RunConfig;
  artifacts : seq (string * ArtVal);
  is_demo : bool
}.

Definition load_all_data (fs : FileSystem) (results_root : Path)
    (demo_mode : bool) (st0 : rng_state G) : Py Bundle * rng_state G :=
  if demo_mode then
    let: (demo, st) := generate_demo_data st0 in
    (match demo with
     | Ok df =>
         Ok {| index_df := Some df;
               case_mapping := None;
               metrics_summary := None;
               run_config := None;
               artifacts :=
                 [:: ("index_csv", Flag true);
                     ("case_mapping", Flag true);
                     ("case_images", Flag false);
                     ("case_image_count", Count 0);
                     ("metrics_summary", Flag false);
                     ("run_config", Flag false);
                     ("calibration_plots", Flag false);
                     ("roc_curves", Flag false);
                     ("pr_curves", Flag false);
                     ("confusion_matrix", Flag false)];
               is_demo := true |}
     | Raise e => Raise e
     end, st)
  else
    let index_df := load_index_csv fs results_root in
    let case_mapping := load_case_mapping fs results_root in
    let metrics_summary := load_metrics_summary fs results_root in
    let run_config := load_run_config fs results_root in
    let artifacts := check_artifacts fs results_root in
    (Ok {| index_df := index_df;
           case_mapping := case_mapping;
           metrics_summary := metrics_summary;
           run_config := run_config;
           artifacts := artifacts;
           is_demo := false |}, st0).

End Demo.

(** [filter_dataframe(df, risk_bands, y_true_values, folds, prob_min,
    prob_max, uncert_min, uncert_max)]: each keyword argument is [None] by
    default.  [df.copy()] is the first thing evaluated, so a [None] frame
    raises [AttributeError]. *)
Definition filter_dataframe (df : option DataFrame)
    (risk_bands : option (seq string)) (y_true_values folds : option (seq Z))
    (prob_min prob_max uncert_min uncert_max : option float) : Py DataFrame :=
  match df with
  | None => Raise AttributeError
  | Some df =>
    let filtered := df in
    let filtered :=
      match risk_bands with
      | Some bands =>        (* [risk_bands and len(risk_bands) > 0] *)
          if (bands != [::]) && (0 < size bands)
          then [seq r <- filtered | risk_band r \in bands] else filtered
      | None => filtered
      end in
    let filtered :=
      match y_true_values with
      | Some values =>       (* [y_true_values is not None and len(...) > 0] *)
          if 0 < size values
          then [seq r <- filtered | y_true r \in values] else filtered
      | None => filtered
      end in
    let filtered :=
      match folds with
      | Some fs =>           (* [folds and len(folds) > 0] *)
          if (fs != [::]) && (0 < size fs)
          then [seq r <- filtered | fold r \in fs] else filtered
      | None => filtered
      end in
    let filtered :=
      if prob_min is Some lo
      then [seq r <- filtered | fge (p_calibrated r) lo] else filtered in
    let filtered :=
      if prob_max is Some hi
      then [seq r <- filtered | fle (p_calibrated r) hi] else filtered in
    let filtered :=
      if uncert_min is Some lo
      then [seq r <- filtered | fge (uncertainty_std r) lo] else filtered in
    let filtered :=
      if uncert_max is Some hi
      then [seq r <- filtered | fle (uncertainty_std r) hi] else filtered in
    Ok filtered
  end.

End DataLoader.

(** ** utils.py *)

Module Utils.

Definition required : seq string :=
  [:: "explainability_reports/index.csv";
      "explainability_reports/case_mapping.csv"].

Definition validate_results_structure (fs : FileSystem) (results_root : Path)
    : bool * seq string :=
  let missing :=
    foldl (fun missing req =>
             let path := results_root // req in
             if ~~ fs_exists fs path then rcons missing req else missing)
          [::] required in
  (size missing == 0, missing).

Definition band_of (p : float) : string :=
  if flt p 0.3 then "LOW"
  else if flt p 0.6 then "LOW-MOD"
  else if flt p 0.8 then "MODERATE"
  else "HIGH".

Section Demo.
Variable G : RandomGen.

Definition generate_demo_data (st0 : rng_state G) : Py DataFrame * rng_state G :=
  let st := rng_seed G 42 in
  let n_cases := 20 in
  let case_ids := [seq ("Case-" ++ fmt_02d i)%string | i <- iota 1 n_cases] in
  let: (folds, st) := draws (rng_choice G [:: 0; 1; 2]%Z None) n_cases st in
  let: (y_true, st) :=
    draws (rng_choice G [:: 0; 1]%Z (Some [:: 0.1%float; 0.9%float])) n_cases st in
  let: (x, st) := rng_random G st in
  let: (p_calibrated, st) :=
    if fgt x 0.5 then draws (rng_beta G 2%float 5%float) n_cases st
    else draws (rng_beta G 5%float 2%float) n_cases st in
  let: (uncertainty_std, st) := draws (rng_uniform G 0.02%float 0.15%float) n_cases st in
  let risk_bands :=
    foldl (fun risk_bands p => rcons risk_bands (band_of p)) [::] p_calibrated in
  (DataFrame_of_columns
     case_ids [seq ("DEMO-" ++ str i)%string | i <- iota 1 n_cases]
     folds y_true p_calibrated uncertainty_std risk_bands,
   st).

End Demo.

Definition filter_dataframe (df : option DataFrame)
    (risk_bands : option (seq string)) (y_true_values folds : option (seq Z))
    (prob_min prob_max uncert_min uncert_max : option float) : Py DataFrame :=
  match df with
  | None => Raise AttributeError
  | Some df =>
    let filtered := df in
    let filtered :=
      match risk_bands with
      | Some bands =>
          if (bands != [::]) && (0 < size bands)
          then [seq r <- filtered | risk_band r \in bands] else filtered
      | None => filtered
      end in
    let filtered :=
      match y_true_values with
      | Some values =>
          if 0 < size values
          then [seq r <- filtered | y_true r \in values] else filtered
      | None => filtered
      end in
    let filtered :=
      match folds with
      | Some fs =>
          if (fs != [::]) && (0 < size fs)
          then [seq r <- filtered | fold r \in fs] else filtered
      | None => filtered
      end in
    let filtered :=
      if prob_min is Some lo
      then [seq r <- filtered | fge (p_calibrated r) lo] else filtered in
    let filtered :=
      if prob_max is Some hi
      then [seq r <- filtered | fle (p_calibrated r) hi] else filtered in
    let filtered :=
      if uncert_min is Some lo
      then [seq r <- filtered | fge (uncertainty_std r) lo] else filtered in
    let filtered :=
      if uncert_max is Some hi
      then [seq r <- filtered | fle (uncertainty_std r) hi] else filtered in
    Ok filtered
  end.

(** [compute_summary_metrics(df)]: a dict, empty for an empty frame. *)
Inductive MetricVal : Type :=
  | MInt of Z
  | MFloat of float
  | MDist of seq (string * nat).

Definition compute_summary_metrics (df : DataFrame) : seq (string * MetricVal) :=
  if df is [::] then [::]
  else
    [:: ("n_cases", MInt (Z.of_nat (size df)));
        ("n_masld", MInt (Series_sum [seq y_true r | r <- df]));
        ("n_healthy", MInt (Z.of_nat (count (fun r => y_true r == 0%Z) df)));
        ("mean_probability", MFloat (Series_mean [seq p_calibrated r | r <- df]));
        ("mean_uncertainty", MFloat (Series_mean [seq uncertainty_std r | r <- df]));
        ("risk_band_dist", MDist (value_counts [seq risk_band r | r <- df]))].

(** [metrics[key]] / [metrics.get(key)] *)
Definition dict_get {V : Type} (d : seq (string * V)) (key : string) : option V :=
  if [seq kv <- d | kv.1 == key] is kv :: _ then Some kv.2 else None.

(** The four loaders of [utils.py].  The first two print the error of a
    failed read, [print(f"Error loading index.csv: {e}")]; a printed line
    is kept as its fixed part and the exception. *)
Definition Printed : Type := seq (string * PyExn).

Definition load_index_csv (fs : FileSystem) (results_root : Path)
    : option DataFrame * Printed :=
  let index_path := results_root // "explainability_reports" // "index.csv" in
  if ~~ fs_exists fs index_path then (None, [::])
  else
    match fs_read_index fs index_path with
    | Ok df => (Some df, [::])
    | Raise e => (None, [:: ("Error loading index.csv: ", e)])
    end.

Definition load_case_mapping (fs : FileSystem) (results_root : Path)
    : option CaseMapping * Printed :=
  let mapping_path :=
    results_root // "explainability_reports" // "case_mapping.csv" in
  if ~~ fs_exists fs mapping_path then (None, [::])
  else
    match fs_read_mapping fs mapping_path with
    | Ok df => (Some df, [::])
    | Raise e => (None, [:: ("Error loading case_mapping.csv: ", e)])
    end.

Definition load_metrics_summary (fs : FileSystem) (results_root : Path)
    : option MetricsSummary :=
  let metrics_path := results_root // "patient_metrics_summary.csv" in
  if ~~ fs_exists fs metrics_path then None
  else try_or_None (fs_read_metrics fs metrics_path).

Definition load_run_config (fs : FileSystem) (results_root : Path)
    : option RunConfig :=
  let config_path := results_root // "run_config.json" in
  if ~~ fs_exists fs config_path then None
  else try_or_None (fs_json_load fs config_path).

End Utils.

(** ** app.py *)

Module App.

(** The [filters] dict handed to [apply_global_filters]: any key may be
    absent ([render_global_filter_bar] returns [{}] for an absent or empty
    index), and [filters.get(key)] is then [None]. *)
Record Filters : Type := mkFilters {
  get_risk_bands : option (seq string);
  get_y_true : option (seq Z);
  get_folds : option (seq Z);
  get_prob_range : option (float * float);
  get_uncert_range : option (float * float)
}.

Definition apply_global_filters (index_df : option DataFrame) (filters : Filters)
    : Py DataFrame :=
  let default := (0.0, 1.0)%float in
  DataLoader.filter_dataframe index_df
    (get_risk_bands filters)
    (get_y_true filters)
    (get_folds filters)
    (Some (odflt default (get_prob_range filters)).1)
    (Some (odflt default (get_prob_range filters)).2)
    (Some (odflt default (get_uncert_range filters)).1)
    (Some (odflt default (get_uncert_range filters)).2).

(** The values [page_dashboard] computes from the filtered view.  The
    column selection, renaming and rounding to three decimals applied to
    the two top-5 tables afterwards are presentation and are left out. *)
Record Dashboard : Type := mkDashboard {
  n_cases : nat;
  n_high_risk : nat;
  pct_high : float;
  avg_prob : float;
  avg_uncert : float;
  top_high : DataFrame;
  top_uncert : DataFrame
}.

Definition dashboard_values (filtered_df : DataFrame) : Dashboard :=
  let n_cases := size filtered_df in
  let n_high_risk := size [seq r <- filtered_df | risk_band r == "HIGH"] in
  let pct_high :=
    if 0 < n_cases
    then PrimFloat.mul (PrimFloat.div (float_of_nat n_high_risk) (float_of_nat n_cases)) 100
    else 0%float in
  let avg_prob := Series_mean [seq p_calibrated r | r <- filtered_df] in
  let avg_uncert := Series_mean [seq uncertainty_std r | r <- filtered_df] in
  {| n_cases := n_cases;
     n_high_risk := n_high_risk;
     pct_high := pct_high;
     avg_prob := avg_prob;
     avg_uncert := avg_uncert;
     top_high := nlargest 5 p_calibrated filtered_df;
     top_uncert := nlargest 5 uncertainty_std filtered_df |}.

(** [page_dashboard(data, results_root)] up to the computed values: [None]
    is the early return on an absent or empty index.  The note on the
    number of patients (it reads [run_config['n_patients']] between the
    guard and the filter, and compares it with [len(index_df)]) is left
    out: the definition is the page for a bundle without run configuration
    (demo mode, or no [run_config.json]) or with an integer [n_patients];
    the comparison raises [TypeError] on any other value. *)
Definition page_dashboard (index_df : option DataFrame) (filters : Filters)
    : option (Py Dashboard) :=
  match index_df with
  | None => None
  | Some [::] => None
  | Some _ =>
      Some (match apply_global_filters index_df filters with
            | Ok filtered_df => Ok (dashboard_values filtered_df)
            | Raise e => Raise e
            end)
  end.

End App.

(** ** The contracts, in the words of the specification

    The definitions of this part are not translated from the code: they
    say what the specification asks of the filter, of top-N and of the
    banding policy, and the theorems below compare the code with them. *)

Module FilterSpec.

(** A filter state: three membership sets and two closed ranges, every
    part optional. *)
Record FilterState : Type := mkFilterState {
  risk_bands : option (seq string);
  y_true_values : option (seq Z);
  folds : option (seq Z);
  prob_min : option float;
  prob_max : option float;
  uncert_min : option float;
  uncert_max : option float
}.

(** A membership constraint is active when its set is non-empty. *)
Definition unconstrained {T : Type} (set : option (seq T)) : bool :=
  if set is Some (_ :: _) then false else true.

Definition member_or_any {T : eqType} (set : option (seq T)) (x : T) : bool :=
  unconstrained set || (x \in odflt [::] set).

(** A closed range, both bounds inclusive; an absent bound does not bind. *)
Definition within (lo hi : option float) (x : float) : bool :=
  (if lo is Some l then fle l x else true)
  && (if hi is Some h then fle x h else true).

(** A row satisfies all active constraints. *)
Definition satisfies (f : FilterState) (r : Row) : bool :=
  [&& member_or_any (risk_bands f) (risk_band r),
      member_or_any (y_true_values f) (y_true r),
      member_or_any (folds f) (fold r),
      within (prob_min f) (prob_max f) (p_calibrated r)
    & within (uncert_min f) (uncert_max f) (uncertainty_std r)].

(** A range is full for a frame when it contains every value of the
    column: in the app, [0.0, 1.0] for the probabilities and
    [0.0, max observed] for the uncertainties of a well-formed index. *)
Definition full_range (lo hi : option float) (column : seq float) : bool :=
  all (within lo hi) column.

End FilterSpec.

Module BandPolicy.

(** The four bands in ascending order of risk, and the place of a band in
    that order. *)
Definition bands : seq string := [:: "LOW"; "LOW-MOD"; "MODERATE"; "HIGH"].
Definition band_rank (b : string) : nat := index b bands.

(** The band implied by a probability under the thresholds
    [t1 < t2 < t3]: below [t1], from [t1] to below [t2], from [t2] to
    below [t3], and from [t3] on. *)
Definition implied_band (t1 t2 t3 : float) (p : float) : string :=
  if flt p t1 then "LOW"
  else if flt p t2 then "LOW-MOD"
  else if flt p t3 then "MODERATE"
  else "HIGH".

(** Thresholds that cut [0, 1] into four non-empty, non-overlapping
    pieces. *)
Definition thresholds_ok (t1 t2 t3 : float) : bool :=
  [&& flt 0 t1, flt t1 t2, flt t2 t3 & fle t3 1].

End BandPolicy.

Module TopNSpec.

(** Descending by the value of a column, rows without a value (NaN) last. *)
Definition descending (key : Row -> float) : rel Row :=
  fun r1 r2 => PrimFloat.is_nan (key r2) || fge (key r1) (key r2).

(** The rows whose value equals [v] (as floats compare: [0.0 == -0.0],
    and NaN equals nothing). *)
Definition tied (key : Row -> float) (v : float) : pred Row :=
  fun r => PrimFloat.eqb (key r) v.

(** [out] is [topN(view, field, n)]: ordered descending by the field; the
    first rows of a descending arrangement of the whole view; among the
    rows of any one value the first ones of the view, in their order in
    the view; [min n (size view)] rows; and all rows of the view when it
    has at most [n], those of equal value in their order in the view. *)
Definition topN (key : Row -> float) (n : nat) (view out : DataFrame) : Prop :=
  [/\ sorted (descending key) out,
      exists2 rest, perm_eq (out ++ rest) view
                  & sorted (descending key) (out ++ rest),
      forall v, prefix [seq r <- out | tied key v r]
                       [seq r <- view | tied key v r],
      size out = minn n (size view)
    & size view <= n ->
      perm_eq out view
      /\ forall v, [seq r <- out | tied key v r]
                   = [seq r <- view | tied key v r]].

End TopNSpec.

(** ** pandas and Python operations of the pages *)

(** [Series.max()]: NaN entries are skipped; NaN when nothing remains. *)
Definition fmax (a b : float) : float := if flt a b then b else a.

Definition Series_max (s : seq float) : float :=
  if [seq x <- s | ~~ PrimFloat.is_nan x] is v :: vs
  then foldl fmax v vs else PrimFloat.nan.

(** [c in name] for a one-character [c]. *)
Fixpoint has_char (c : ascii) (s : string) : bool :=
  if s is String a s' then Ascii.eqb a c || has_char c s' else false.

(** [min(a, b)] on floats: [b] only when [b < a]. *)
Definition py_min (a b : float) : float := if flt b a then b else a.

(** Exceptions of the presentation code, and its fallible results. *)
Inductive UiExn : Type :=
  | ZeroDivisionError   (* float division by zero *)
  | IndexError.         (* [.iloc[0]] on an empty selection *)

Inductive UiResult (A : Type) : Type :=
  | Shows of A
  | Fails of UiExn.
Arguments Fails {A} _.

(** [x / y] on Python floats. *)
Definition py_truediv (x y : float) : UiResult float :=
  if PrimFloat.eqb y 0 then Fails ZeroDivisionError
  else Shows (PrimFloat.div x y).

(** Reading the [artifacts] dict: [artifacts.get(key, False)] as a
    condition, [artifacts.get('case_image_count', 0)] as a number, and
    [str(value)]. *)
Definition truthy (v : DataLoader.ArtVal) : bool :=
  match v with DataLoader.Flag b => b | DataLoader.Count n => n != 0 end.

Definition as_int (v : DataLoader.ArtVal) : nat :=
  match v with DataLoader.Flag b => b | DataLoader.Count n => n end.

Definition py_str (v : DataLoader.ArtVal) : string :=
  match v with
  | DataLoader.Flag true => "True"
  | DataLoader.Flag false => "False"
  | DataLoader.Count n => str n
  end.

Definition artifact_get (artifacts : seq (string * DataLoader.ArtVal))
    (key : string) (default : DataLoader.ArtVal) : DataLoader.ArtVal :=
  odflt default (Utils.dict_get artifacts key).

Definition available (artifacts : seq (string * DataLoader.ArtVal))
    (key : string) : bool :=
  truthy (artifact_get artifacts key (DataLoader.Flag false)).

Definition image_count (artifacts : seq (string * DataLoader.ArtVal)) : nat :=
  as_int (artifact_get artifacts "case_image_count" (DataLoader.Count 0)).

(** ** ui.py *)

Module Ui.

(** [st.session_state] as the code reads and writes it: a dict whose
    values are lists of strings, lists of ints, pairs of floats or
    strings.  [state[key] = v] replaces the entry of [key].  The entries
    Streamlit itself keeps for the widgets, under their [key=] names
    ([<prefix>_risk_select] to [<prefix>_reset]), are not part of it. *)
Inductive SessionVal : Type :=
  | StrList of seq string
  | IntList of seq Z
  | Range of float * float
  | Str of string.

Definition SessionState : Type := seq (string * SessionVal).

Definition ss_get (st : SessionState) (key : string) : option SessionVal :=
  Utils.dict_get st key.

Definition ss_set (st : SessionState) (key : string) (v : SessionVal)
    : SessionState :=
  (key, v) :: [seq kv <- st | kv.1 != key].

(** [st.session_state.get(key, default)] where the entry, when there is
    one, was written by [render_global_filter_bar] with that type. *)
Definition get_strs (st : SessionState) (key : string) (default : seq string)
    : seq string :=
  if ss_get st key is Some (StrList l) then l else default.

Definition get_ints (st : SessionState) (key : string) (default : seq Z)
    : seq Z :=
  if ss_get st key is Some (IntList l) then l else default.

Definition get_range (st : SessionState) (key : string)
    (default : float * float) : float * float :=
  if ss_get st key is Some (Range r) then r else default.

(** What the five filter widgets and the reset button return on one run
    of the script: the user's current selections. *)
Record Widgets : Type := mkWidgets {
  risk_select : seq string;
  class_select : seq Z;
  fold_select : seq Z;
  prob_slider : float * float;
  uncert_slider : float * float;
  reset_button : bool
}.

(** [render_global_filter_bar] returns the filters dict, or stops in
    [st.rerun()]. *)
Inductive BarOutcome : Type :=
  | Returns of App.Filters
  | Reruns.

(** The initialisation of the keys that are not yet in the session. *)
Definition init_filter_keys (st : SessionState) (index_df : DataFrame)
    (key_prefix : string) : SessionState :=
  let k field := (key_prefix ++ field)%string in
  let st := if ss_get st (k "_risk_bands") is None
            then ss_set st (k "_risk_bands") (StrList [::]) else st in
  let st := if ss_get st (k "_y_true") is None
            then ss_set st (k "_y_true") (IntList [::]) else st in
  let st := if ss_get st (k "_folds") is None
            then ss_set st (k "_folds") (IntList [::]) else st in
  let st := if ss_get st (k "_prob_range") is None
            then ss_set st (k "_prob_range") (Range (0.0, 1.0)%float) else st in
  let st := if ss_get st (k "_uncert_range") is None
            then
              let uncert_max :=
                Series_max [seq uncertainty_std r | r <- index_df] in
              ss_set st (k "_uncert_range") (Range (0.0%float, uncert_max))
            else st in
  st.

(** [render_global_filter_bar(index_df, key_prefix)], its effect on the
    session and its result; the chips and the widgets it draws are left
    out. *)
Definition render_global_filter_bar (st : SessionState)
    (index_df : option DataFrame) (key_prefix : string) (w : Widgets)
    : SessionState * BarOutcome :=
  match index_df with
  | None | Some [::] =>
      (st, Returns (App.mkFilters None None None None None))
  | Some df =>
      let k field := (key_prefix ++ field)%string in
      let st := init_filter_keys st df key_prefix in
      let st := ss_set st (k "_risk_bands") (StrList (risk_select w)) in
      let st := ss_set st (k "_y_true") (IntList (class_select w)) in
      let st := ss_set st (k "_folds") (IntList (fold_select w)) in
      let st := ss_set st (k "_prob_range") (Range (prob_slider w)) in
      let st := ss_set st (k "_uncert_range") (Range (uncert_slider w)) in
      if reset_button w then
        let st := ss_set st (k "_risk_bands") (StrList [::]) in
        let st := ss_set st (k "_y_true") (IntList [::]) in
        let st := ss_set st (k "_folds") (IntList [::]) in
        let st := ss_set st (k "_prob_range") (Range (0.0, 1.0)%float) in
        let uncert_max := Series_max [seq uncertainty_std r | r <- df] in
        let st :=
          ss_set st (k "_uncert_range") (Range (0.0%float, uncert_max)) in
        (st, Reruns)
      else
        (st,
         Returns
           {| App.get_risk_bands := Some (get_strs st (k "_risk_bands") [::]);
              App.get_y_true := Some (get_ints st (k "_y_true") [::]);
              App.get_folds := Some (get_ints st (k "_folds") [::]);
              App.get_prob_range :=
                Some (get_range st (k "_prob_range") (0.0, 1.0)%float);
              App.get_uncert_range :=
                Some (get_range st (k "_uncert_range") (0.0, 1.0)%float) |})
  end.

(** [render_uncertainty_meter(value, max_value)]: the width of the bar in
    percent and its colour. *)
Definition render_uncertainty_meter (value max_value : float)
    : UiResult (float * string) :=
  match py_truediv value max_value with
  | Fails e => Fails e
  | Shows q =>
      let percent := py_min (PrimFloat.mul q 100) 100 in
      let color :=
        if flt percent 33 then "#48BB78"
        else if flt percent 66 then "#F6E05E"
        else "#FC8181" in
      Shows (percent, color)
  end.

(** [render_artifact_cards(artifacts)]: for each card its column, icon,
    label, status icon, status colour and detail text. *)
Inductive Item : Type :=
  | Item3 of string & string & DataLoader.ArtVal
  | Item4 of string & string & DataLoader.ArtVal & DataLoader.ArtVal.

Record Card : Type := mkCard {
  column : nat;
  icon : string;
  label : string;
  status_icon : string;
  status_color : string;
  detail : string
}.

Definition card_of (idx : nat) (item : Item) : Card :=
  let: (icon, label, available, detail) :=
    match item with
    | Item4 icon label available count =>
        (icon, label, available,
         if truthy available && (0 < as_int count)
         then (py_str count ++ " images")%string
         else if truthy available then "Available" else "Missing")
    | Item3 icon label available =>
        (icon, label, available,
         if truthy available then "Available" else "Missing")
    end in
  {| column := Nat.modulo idx 4;
     icon := icon;
     label := label;
     status_icon := if truthy available then "✅" else "❌";
     status_color := if truthy available then "#22543D" else "#742A2A";
     detail := detail |}.

Definition render_artifact_cards (artifacts : seq (string * DataLoader.ArtVal))
    : seq Card :=
  let get key := artifact_get artifacts key (DataLoader.Flag false) in
  let artifact_list :=
    [:: Item3 "📄" "Index CSV" (get "index_csv");
        Item3 "🗺️" "Case Mapping" (get "case_mapping");
        Item4 "🖼️" "Case Images" (get "case_images")
          (artifact_get artifacts "case_image_count" (DataLoader.Count 0));
        Item3 "📊" "Metrics" (get "metrics_summary");
        Item3 "⚙️" "Config" (get "run_config");
        Item3 "📈" "Calibration" (get "calibration_plots");
        Item3 "📉" "ROC Curves" (get "roc_curves");
        Item3 "📊" "PR Curves" (get "pr_curves")] in
  [seq card_of ix.1 ix.2 | ix <- zip (iota 0 (size artifact_list)) artifact_list].

End Ui.

(** ** app.py, the sidebar and the case explorer *)

Module AppPages.

(** [get_folder_name(results_root)]: [results_root.name] is the last
    component of the path, the empty string for the root. *)
Definition get_folder_name (results_root : Path) : option string :=
  let name := last "" results_root in
  if [&& name != "", ~~ has_char "/"%char name,
         ~~ has_char "092"%char name & ~~ has_char ":"%char name]
  then Some name else None.

(** The connection status [sidebar_setup] shows: connected, with the
    folder name when there is one to show, or not connected, with the
    warning "Missing N required file(s)" when [missing] is not empty. *)
Inductive Connection : Type :=
  | Connected of option string
  | NotConnected of option nat.

Definition connection_status (fs : FileSystem) (results_root : Path)
    (demo_mode : bool) : Connection :=
  if ~~ demo_mode then
    let: (is_valid, missing) :=
      DataLoader.validate_results_structure fs results_root in
    if is_valid then Connected (get_folder_name results_root)
    else NotConnected (if missing is [::] then None else Some (size missing))
  else Connected (Some "DEMO").

(** [page_case_explorer] up to the selection of a case.  The search is
    pandas' [Series.str.contains(search_term, case=False, na=False)], which
    is not part of the viewer: it is a parameter.  It takes the search
    term as a regular expression and raises for a term that is not one
    ([re.error], for ["("] say); for a term that compiles it is a search
    in each case id. *)
Section Explorer.
Variable str_contains : string -> Py (string -> bool).

Definition explorer_view (index_df : option DataFrame)
    (filters : App.Filters) (search_term : string) : option (Py DataFrame) :=
  match index_df with
  | None | Some [::] => None
  | Some _ =>
      Some (match App.apply_global_filters index_df filters with
            | Ok filtered_df =>
                if search_term != "" then
                  match str_contains search_term with
                  | Ok found =>
                      Ok [seq r <- filtered_df | found (case_id r)]
                  | Raise e => Raise e
                  end
                else Ok filtered_df
            | Raise e => Raise e
            end)
  end.

End Explorer.

(** [sorted(filtered_df['case_id'].unique().tolist())] *)
Definition case_ids_of (filtered_df : DataFrame) : seq string :=
  sort String.leb (undup [seq case_id r | r <- filtered_df]).

(** [filtered_df[filtered_df['case_id'] == selected_case].iloc[0]] *)
Definition case_data_of (filtered_df : DataFrame) (selected_case : string)
    : UiResult Row :=
  if [seq r <- filtered_df | case_id r == selected_case] is r :: _
  then Shows r else Fails IndexError.

End AppPages.

(** ** Contracts of the pages and of the session *)

(** [filter_dataframe] at a filter state, and the sequencing of two
    fallible steps. *)
Definition apply_filter (f : FilterSpec.FilterState) (df : option DataFrame)
    : Py DataFrame :=
  DataLoader.filter_dataframe df
    (FilterSpec.risk_bands f) (FilterSpec.y_true_values f) (FilterSpec.folds f)
    (FilterSpec.prob_min f) (FilterSpec.prob_max f)
    (FilterSpec.uncert_min f) (FilterSpec.uncert_max f).

Definition and_then {A B : Type} (r : Py A) (k : A -> Py B) : Py B :=
  match r with Ok a => k a | Raise e => Raise e end.

(** The filter state [apply_global_filters] passes on: the three sets as
    they are, the two ranges with their default. *)
Definition filter_state_of (filters : App.Filters) : FilterSpec.FilterState :=
  let p := odflt (0.0, 1.0)%float (App.get_prob_range filters) in
  let u := odflt (0.0, 1.0)%float (App.get_uncert_range filters) in
  FilterSpec.mkFilterState (App.get_risk_bands filters) (App.get_y_true filters)
    (App.get_folds filters) (Some p.1) (Some p.2) (Some u.1) (Some u.2).

(** The ten keys of the [artifacts] dict. *)
Definition artifact_keys : seq string :=
  [:: "index_csv"; "case_mapping"; "metrics_summary"; "run_config";
      "calibration_plots"; "roc_curves"; "pr_curves"; "confusion_matrix";
      "case_images"; "case_image_count"].

(** A row within the data model: a case id, a fold of the three, a binary
    class, a probability in [0, 1], a non-negative uncertainty and one of
    the four bands. *)
Definition well_formed (r : Row) : bool :=
  [&& case_id r != "", fold r \in [:: 0; 1; 2]%Z, y_true r \in [:: 0; 1]%Z,
      fle 0 (p_calibrated r) && fle (p_calibrated r) 1,
      fle 0 (uncertainty_std r) & risk_band r \in BandPolicy.bands].

(** A generator whose draws lie where the distributions put them. *)
Definition draws_in_support (G : RandomGen) : Prop :=
  [/\ forall a p s, a != [::] -> (rng_choice G a p s).1 \in a,
      forall a b s, fle 0 (rng_beta G a b s).1 && fle (rng_beta G a b s).1 1
    & forall lo hi s, fle lo hi ->
        fle lo (rng_uniform G lo hi s).1 && fle (rng_uniform G lo hi s).1 hi].

(** The five session keys of a filter bar, and widgets that return what
    the bar hands them: each widget is created with the session value of
    its key as [default=] or [value=], and returns it on the run that
    creates it, before any widget state exists.  (On later runs a keyed
    widget returns its own state, whatever the session holds under the
    five keys.) *)
Definition filter_fields : seq string :=
  [:: "_risk_bands"; "_y_true"; "_folds"; "_prob_range"; "_uncert_range"].

Definition untouched_widgets (st : Ui.SessionState) (key_prefix : string)
    : Ui.Widgets :=
  let k field := (key_prefix ++ field)%string in
  {| Ui.risk_select := Ui.get_strs st (k "_risk_bands") [::];
     Ui.class_select := Ui.get_ints st (k "_y_true") [::];
     Ui.fold_select := Ui.get_ints st (k "_folds") [::];
     Ui.prob_slider := Ui.get_range st (k "_prob_range") (0.0, 1.0)%float;
     Ui.uncert_slider := Ui.get_range st (k "_uncert_range") (0.0, 1.0)%float;
     Ui.reset_button := false |}.

(** What [apply_global_filters] guarantees of a row of the view: the two
    ranges are always passed on, with [(0.0, 1.0)] when the key is absent,
    so both values are present and in range. *)
Definition in_view_ranges (filters : App.Filters) (r : Row) : bool :=
  let p := odflt (0.0, 1.0)%float (App.get_prob_range filters) in
  let u := odflt (0.0, 1.0)%float (App.get_uncert_range filters) in
  [&& ~~ PrimFloat.is_nan (p_calibrated r),
      ~~ PrimFloat.is_nan (uncertainty_std r),
      FilterSpec.within (Some p.1) (Some p.2) (p_calibrated r)
    & FilterSpec.within (Some u.1) (Some u.2) (uncertainty_std r)].

(** The widgets at the values the bar initialises and resets the session
    to, and the filters dict made of the widgets' values. *)
Definition default_widgets (index_df : DataFrame) : Ui.Widgets :=
  {| Ui.risk_select := [::];
     Ui.class_select := [::];
     Ui.fold_select := [::];
     Ui.prob_slider := (0.0, 1.0)%float;
     Ui.uncert_slider :=
       (0.0%float, Series_max [seq uncertainty_std r | r <- index_df]);
     Ui.reset_button := false |}.

Definition filters_of_widgets (w : Ui.Widgets) : App.Filters :=
  {| App.get_risk_bands := Some (Ui.risk_select w);
     App.get_y_true := Some (Ui.class_select w);
     App.get_folds := Some (Ui.fold_select w);
     App.get_prob_range := Some (Ui.prob_slider w);
     App.get_uncert_range := Some (Ui.uncert_slider w) |}.

(** The session keys of the bar with prefix [key_prefix]. *)
Definition filter_keys (key_prefix : string) : seq string :=
  [seq (key_prefix ++ field)%string | field <- filter_fields].

(** A row whose probability is in [0, 1] and whose uncertainty is a
    non-negative number. *)
Definition values_in_range (r : Row) : bool :=
  [&& fle 0 (p_calibrated r), fle (p_calibrated r) 1
    & fle 0 (uncertainty_std r)].

(** ** Sample inputs *)

Definition sample_index : DataFrame :=
  [:: mkRow "Case-01" "P-1" 0 0 0.2 0.05 "LOW";
      mkRow "Case-02" "P-2" 1 1 0.5 0.10 "MODERATE";
      mkRow "Case-03" "P-3" 2 1 0.9 0.10 "HIGH";
      mkRow "Case-04" "P-4" 0 1 0.9 0.02 "HIGH"].

(** A root [results] holding [index.csv] and nothing else. *)
Definition sample_fs : FileSystem :=
  {| fs_exists := fun p => p == [:: "results"; "explainability_reports"; "index.csv"];
     fs_glob := fun _ _ => [::];
     fs_read_index := fun _ => Ok sample_index;
     fs_read_mapping := fun _ => Raise OSError;
     fs_read_metrics := fun _ => Raise OSError;
     fs_json_load := fun _ => Raise OSError |}.

(** A filter state no row of [sample_index] matches: probabilities in
    [0.95, 1.0]. *)
Definition no_match_filters : App.Filters :=
  {| App.get_risk_bands := Some [::];
     App.get_y_true := Some [::];
     App.get_folds := Some [::];
     App.get_prob_range := Some (0.95, 1.0)%float;
     App.get_uncert_range := Some (0.0, 0.10)%float |}.

(** A root where nothing exists, and one where everything does. *)
Definition empty_fs : FileSystem :=
  {| fs_exists := fun _ => false;
     fs_glob := fun _ _ => [::];
     fs_read_index := fun _ => Raise OSError;
     fs_read_mapping := fun _ => Raise OSError;
     fs_read_metrics := fun _ => Raise OSError;
     fs_json_load := fun _ => Raise OSError |}.

Definition full_fs : FileSystem :=
  {| fs_exists := fun _ => true;
     fs_glob := fun _ _ => [::];
     fs_read_index := fun _ => Ok sample_index;
     fs_read_mapping := fun _ => Ok [::];
     fs_read_metrics := fun _ => Raise ParseError;
     fs_json_load := fun _ => Raise ParseError |}.

(** A generator that counts its draws: the first choice, the middle of
    the unit interval, the lower bound. *)
Definition sample_gen : RandomGen :=
  {| rng_state := nat;
     rng_seed := fun k => Z.to_nat k;
     rng_choice := fun a _ s => (head 0%Z a, s.+1);
     rng_beta := fun _ _ s => (0.5%float, s.+1);
     rng_uniform := fun lo _ s => (lo, s.+1);
     rng_random := fun s => (0.5%float, s.+1) |}.

(** A generator whose probabilities are all [p]: the first choice, [p]
    for every beta draw, the lower bound. *)
Definition constant_gen (p : float) : RandomGen :=
  {| rng_state := nat;
     rng_seed := fun k => Z.to_nat k;
     rng_choice := fun a _ s => (head 0%Z a, s.+1);
     rng_beta := fun _ _ s => (p, s.+1);
     rng_uniform := fun lo _ s => (lo, s.+1);
     rng_random := fun s => (0.5%float, s.+1) |}.

(** Widgets with a selection made, and with the reset button pressed. *)
Definition sample_widgets : Ui.Widgets :=
  {| Ui.risk_select := [:: "HIGH"];
     Ui.class_select := [::];
     Ui.fold_select := [:: 0%Z; 2%Z];
     Ui.prob_slider := (0.5, 1.0)%float;
     Ui.uncert_slider := (0.0, 0.10)%float;
     Ui.reset_button := false |}.

Definition reset_widgets : Ui.Widgets :=
  {| Ui.risk_select := [:: "HIGH"];
     Ui.class_select := [::];
     Ui.fold_select := [::];
     Ui.prob_slider := (0.5, 1.0)%float;
     Ui.uncert_slider := (0.0, 0.10)%float;
     Ui.reset_button := true |}.

(** * Properties *)

(** ** The order of binary64 numbers

    The comparisons of primitive floats are specified by [SFcompare] on
    their decoded form; the facts below are read off that specification. *)

Module SFOrder.

Ltac cmp_cases :=
  repeat match goal with
  | |- context [Z.compare ?a ?b] => destruct (Z.compare_spec a b)
  | H : context [Z.compare ?a ?b] |- _ => destruct (Z.compare_spec a b)
  | |- context [Pos.compare_cont Eq ?a ?b] =>
      change (Pos.compare_cont Eq a b) with (Pos.compare a b);
      destruct (Pos.compare_spec a b)
  | H : context [Pos.compare_cont Eq ?a ?b] |- _ =>
      change (Pos.compare_cont Eq a b) with (Pos.compare a b) in H;
      destruct (Pos.compare_spec a b)
  end.

Ltac by_cases3 a b c :=
  destruct a as [[]|[]| |[] ? ?], b as [[]|[]| |[] ? ?], c as [[]|[]| |[] ? ?];
  cbn; try easy; cmp_cases; cbn; try easy; try lia.

Ltac by_cases2 a b :=
  destruct a as [[]|[]| |[] ? ?], b as [[]|[]| |[] ? ?];
  cbn; try easy; cmp_cases; cbn; try easy; try lia.

Lemma SFeqb_refl (a : spec_float) : SFeqb a a = ~~ sf_is_nan a.
Proof.
  destruct a as [[]|[]| |[] m e]; cbn; try easy;
    rewrite Z.compare_refl; change (Pos.compare_cont Eq m m) with (Pos.compare m m);
    now rewrite Pos.compare_refl.
Qed.

Lemma SFleb_total (a b : spec_float) :
  ~~ sf_is_nan a -> ~~ sf_is_nan b -> SFleb a b || SFleb b a.
Proof. by_cases2 a b. Qed.

Lemma SFleb_trans (b a c : spec_float) : SFleb a b -> SFleb b c -> SFleb a c.
Proof. by_cases3 a b c. Qed.

Lemma SFleb_ltb_trans (b a c : spec_float) : SFleb a b -> SFltb b c -> SFltb a c.
Proof. by_cases3 a b c. Qed.

Lemma SFeqb_leb (k a b : spec_float) : SFeqb a k -> SFeqb b k -> SFleb a b.
Proof. by_cases3 a k b. Qed.

Lemma SFleb_notnan (a b : spec_float) :
  SFleb a b -> ~~ sf_is_nan a && ~~ sf_is_nan b.
Proof. by_cases2 a b. Qed.

Lemma SFeqb_notnan (a b : spec_float) : SFeqb a b -> ~~ sf_is_nan a.
Proof. by_cases2 a b. Qed.

End SFOrder.

Section FloatOrder.
Import SFOrder.

Lemma is_nanE (x : float) : PrimFloat.is_nan x = sf_is_nan (Prim2SF x).
Proof. by rewrite /PrimFloat.is_nan FloatAxioms.eqb_spec SFeqb_refl negbK. Qed.

Lemma fle_total (x y : float) :
  ~~ PrimFloat.is_nan x -> ~~ PrimFloat.is_nan y -> fle x y || fle y x.
Proof. rewrite !is_nanE /fle !FloatAxioms.leb_spec; exact: SFleb_total. Qed.

Lemma fle_trans : transitive fle.
Proof. move=> y x z; rewrite /fle !FloatAxioms.leb_spec; exact: SFleb_trans. Qed.

Lemma fle_flt_trans (y x z : float) : fle x y -> flt y z -> flt x z.
Proof. rewrite /fle /flt !FloatAxioms.leb_spec !FloatAxioms.ltb_spec; exact: SFleb_ltb_trans. Qed.

Lemma fle_notnan (x y : float) :
  fle x y -> ~~ PrimFloat.is_nan x && ~~ PrimFloat.is_nan y.
Proof. rewrite /fle FloatAxioms.leb_spec !is_nanE; exact: SFleb_notnan. Qed.

Lemma feq_fle (k x y : float) :
  PrimFloat.eqb x k -> PrimFloat.eqb y k -> fle x y.
Proof. rewrite /fle !FloatAxioms.eqb_spec FloatAxioms.leb_spec; exact: SFeqb_leb. Qed.

Lemma feq_notnan (x k : float) : PrimFloat.eqb x k -> ~~ PrimFloat.is_nan x.
Proof. rewrite FloatAxioms.eqb_spec is_nanE; exact: SFeqb_notnan. Qed.

End FloatOrder.

(** ** The filter *)

Section FilterStages.
Import FilterSpec.

Lemma stage_truthy (T : eqType) (col : Row -> T) (set : option (seq T))
    (s : DataFrame) :
  match set with
  | Some vs => if (vs != [::]) && (0 < size vs)
               then [seq r <- s | col r \in vs] else s
  | None => s
  end = [seq r <- s | member_or_any set (col r)].
Proof. by case: set => [[|v vs]|] //=; rewrite filter_predT. Qed.

Lemma stage_not_None (T : eqType) (col : Row -> T) (set : option (seq T))
    (s : DataFrame) :
  match set with
  | Some vs => if 0 < size vs then [seq r <- s | col r \in vs] else s
  | None => s
  end = [seq r <- s | member_or_any set (col r)].
Proof. by case: set => [[|v vs]|] //=; rewrite filter_predT. Qed.

Lemma stage_ge (col : Row -> float) (lo : option float) (s : DataFrame) :
  (if lo is Some l then [seq r <- s | fge (col r) l] else s)
  = [seq r <- s | if lo is Some l then fle l (col r) else true].
Proof. by case: lo => [l|] //=; rewrite filter_predT. Qed.

Lemma stage_le (col : Row -> float) (hi : option float) (s : DataFrame) :
  (if hi is Some h then [seq r <- s | fle (col r) h] else s)
  = [seq r <- s | if hi is Some h then fle (col r) h else true].
Proof. by case: hi => [h|] //=; rewrite filter_predT. Qed.

(** The seven successive selections amount to one selection by the
    conjunction. *)
Lemma filter_dataframe_conj (df : DataFrame) (f : FilterState) :
  DataLoader.filter_dataframe (Some df) (risk_bands f) (y_true_values f)
    (folds f) (prob_min f) (prob_max f) (uncert_min f) (uncert_max f)
  = Ok [seq r <- df | satisfies f r].
Proof.
  rewrite /DataLoader.filter_dataframe; cbv zeta.
  rewrite stage_truthy stage_not_None stage_truthy !stage_ge !stage_le.
  rewrite -!filter_predI; congr Ok; apply: eq_filter => r /=.
  rewrite /satisfies /within.
  by do !case: (member_or_any _ _) => //=; do !case: (match _ with Some _ => _ | None => _ end).
Qed.

End FilterStages.

Section FilterLaws.
Import FilterSpec.

(** C1.  For every case index and every filter state, [filter_dataframe]
    returns a frame [out] of input rows in their input order such that
    every row of [out] satisfies all active constraints (its risk band,
    class and fold are in the respective set when that set is non-empty,
    and its probability and uncertainty lie in the closed ranges), and
    every input row that satisfies all active constraints is in [out]. *)
Theorem filter_dataframe_sound_complete (df : DataFrame) (f : FilterState) :
  exists2 out : DataFrame,
    DataLoader.filter_dataframe (Some df) (risk_bands f) (y_true_values f)
      (folds f) (prob_min f) (prob_max f) (uncert_min f) (uncert_max f)
    = Ok out
  & [/\ subseq out df,
        all (satisfies f) out
      & forall r, r \in df -> satisfies f r -> r \in out].
Proof.
  exists [seq r <- df | satisfies f r]; first exact: filter_dataframe_conj.
  split; first exact: filter_subseq.
  - exact: filter_all.
  - by move=> r r_df sat_r; rewrite mem_filter sat_r.
Qed.

Lemma satisfies_full (df : DataFrame) (f : FilterState) :
  unconstrained (risk_bands f) -> unconstrained (y_true_values f) ->
  unconstrained (folds f) ->
  full_range (prob_min f) (prob_max f) [seq p_calibrated r | r <- df] ->
  full_range (uncert_min f) (uncert_max f) [seq uncertainty_std r | r <- df] ->
  all (satisfies f) df.
Proof.
  rewrite /full_range !all_map => rb yt fo /allP ps /allP us.
  apply/allP => r r_df; rewrite /satisfies /member_or_any rb yt fo /=.
  by have /= -> := ps r r_df; have /= -> := us r r_df.
Qed.

Lemma filter_dataframe_full (df : DataFrame) (f : FilterState) :
  unconstrained (risk_bands f) -> unconstrained (y_true_values f) ->
  unconstrained (folds f) ->
  full_range (prob_min f) (prob_max f) [seq p_calibrated r | r <- df] ->
  full_range (uncert_min f) (uncert_max f) [seq uncertainty_std r | r <- df] ->
  DataLoader.filter_dataframe (Some df) (risk_bands f) (y_true_values f)
    (folds f) (prob_min f) (prob_max f) (uncert_min f) (uncert_max f)
  = Ok df.
Proof.
  move=> rb yt fo ps us; rewrite filter_dataframe_conj; congr Ok.
  by apply/all_filterP; apply: satisfies_full.
Qed.

(** C2.  Identity law: when the three membership sets are empty (absent
    or the empty list) and both ranges are full for the frame,
    [filter_dataframe] returns the input unchanged.  In particular an
    empty list for a field selects exactly what no constraint on that
    field selects, whatever the other constraints are. *)
Theorem filter_dataframe_identity (df : DataFrame) (f : FilterState) :
  unconstrained (risk_bands f) -> unconstrained (y_true_values f) ->
  unconstrained (folds f) ->
  full_range (prob_min f) (prob_max f) [seq p_calibrated r | r <- df] ->
  full_range (uncert_min f) (uncert_max f) [seq uncertainty_std r | r <- df] ->
  DataLoader.filter_dataframe (Some df) (risk_bands f) (y_true_values f)
    (folds f) (prob_min f) (prob_max f) (uncert_min f) (uncert_max f)
  = Ok df
  /\ (forall rb yt fo a b c d,
        [/\ DataLoader.filter_dataframe (Some df) (Some [::]) yt fo a b c d
            = DataLoader.filter_dataframe (Some df) None yt fo a b c d,
            DataLoader.filter_dataframe (Some df) rb (Some [::]) fo a b c d
            = DataLoader.filter_dataframe (Some df) rb None fo a b c d
          & DataLoader.filter_dataframe (Some df) rb yt (Some [::]) a b c d
            = DataLoader.filter_dataframe (Some df) rb yt None a b c d]).
Proof.
  move=> rb yt fo ps us; split; last by [].
  exact: filter_dataframe_full.
Qed.

(** The same law at the call the pages make: [apply_global_filters] with
    empty selections and ranges that contain the data. *)
Lemma apply_global_filters_identity (df : DataFrame) (filters : App.Filters) :
  unconstrained (App.get_risk_bands filters) ->
  unconstrained (App.get_y_true filters) ->
  unconstrained (App.get_folds filters) ->
  (let: (lo, hi) := odflt (0.0, 1.0)%float (App.get_prob_range filters) in
   full_range (Some lo) (Some hi) [seq p_calibrated r | r <- df]) ->
  (let: (lo, hi) := odflt (0.0, 1.0)%float (App.get_uncert_range filters) in
   full_range (Some lo) (Some hi) [seq uncertainty_std r | r <- df]) ->
  App.apply_global_filters (Some df) filters = Ok df.
Proof.
  case: filters => rb yt fo pr ur /= Hrb Hyt Hfo.
  case: (odflt _ pr) => plo phi Hp; case: (odflt _ ur) => ulo uhi Hu.
  exact: (@filter_dataframe_full df
            (mkFilterState rb yt fo (Some plo) (Some phi) (Some ulo) (Some uhi))).
Qed.

Lemma filter_dataframe_identity_witness :
  DataLoader.filter_dataframe (Some sample_index)
    (Some [::]) None (Some [::])
    (Some 0.0%float) (Some 1.0%float) (Some 0.0%float) (Some 0.10%float)
  = Ok sample_index.
Proof.
  exact: (proj1 (@filter_dataframe_identity sample_index
            (mkFilterState (Some [::]) None (Some [::])
               (Some 0.0%float) (Some 1.0%float)
               (Some 0.0%float) (Some 0.10%float))
            isT isT isT isT isT)).
Defined.

(** C4, as the code has it.  For every filter state, [filter_dataframe]
    applied to an empty case index returns the empty index and does not
    raise.  An absent index is outside the function's input type
    ([df: pd.DataFrame]): [df.copy()] raises [AttributeError] on [None],
    and the pages return before filtering when the index is absent or
    empty. *)
Theorem filter_dataframe_empty (f : FilterState) (filters : App.Filters) :
  [/\ DataLoader.filter_dataframe (Some [::]) (risk_bands f) (y_true_values f)
        (folds f) (prob_min f) (prob_max f) (uncert_min f) (uncert_max f)
      = Ok [::],
      DataLoader.filter_dataframe None (risk_bands f) (y_true_values f)
        (folds f) (prob_min f) (prob_max f) (uncert_min f) (uncert_max f)
      = Raise AttributeError,
      App.page_dashboard None filters = None
    & App.page_dashboard (Some [::]) filters = None].
Proof. by split=> //; rewrite filter_dataframe_conj. Qed.

(** C9.  The filter of [data_loader.py] and the filter of [utils.py]
    return the same result (the same frame, or the same exception) for
    every frame, absent or not, and every combination of arguments. *)
Theorem filter_dataframe_implementations_agree
    (df : option DataFrame) (risk_bands : option (seq string))
    (y_true_values folds : option (seq Z))
    (prob_min prob_max uncert_min uncert_max : option float) :
  DataLoader.filter_dataframe df risk_bands y_true_values folds
    prob_min prob_max uncert_min uncert_max
  = Utils.filter_dataframe df risk_bands y_true_values folds
    prob_min prob_max uncert_min uncert_max.
Proof. by []. Qed.

(** X1.  Idempotence: filtering the result again with the same filter state
    returns it unchanged. *)
Theorem filter_dataframe_idempotent (df : DataFrame) (f : FilterState) :
  exists2 out : DataFrame,
    DataLoader.filter_dataframe (Some df) (risk_bands f) (y_true_values f)
      (folds f) (prob_min f) (prob_max f) (uncert_min f) (uncert_max f)
    = Ok out
  & DataLoader.filter_dataframe (Some out) (risk_bands f) (y_true_values f)
      (folds f) (prob_min f) (prob_max f) (uncert_min f) (uncert_max f)
    = Ok out.
Proof.
  exists [seq r <- df | satisfies f r]; rewrite filter_dataframe_conj //.
  by rewrite filter_id.
Qed.

End FilterLaws.

(** The two filter scenarios of the specification: bands LOW, HIGH, HIGH
    filtered by [{HIGH}] leave the two HIGH rows; probabilities 0.2, 0.5,
    0.9 filtered by the range [0.5, 1.0] leave 0.5 and 0.9. *)
Example filter_dataframe_scenarios :
  let index := [:: mkRow "a" "" 0 0 0.2 0.05 "LOW";
                   mkRow "b" "" 0 1 0.5 0.05 "HIGH";
                   mkRow "c" "" 0 1 0.9 0.05 "HIGH"] in
  DataLoader.filter_dataframe (Some index) (Some [:: "HIGH"])
    None None None None None None
  = Ok (drop 1 index)
  /\ DataLoader.filter_dataframe (Some index) None None None
       (Some 0.5%float) (Some 1.0%float) None None
     = Ok (drop 1 index).
Proof. by []. Qed.

(** C4 as stated fails: on an absent index the filter raises. *)
Lemma filter_dataframe_None_raises :
  DataLoader.filter_dataframe None None None None None None None None
  = Raise AttributeError.
Proof. by []. Qed.

(** ** The validator *)

Section Validator.
Variables (fs : FileSystem) (results_root : Path).

(** The loop collects, in order, the names whose path is absent. *)
Lemma missing_loopE (reqs acc : seq string) :
  foldl (fun missing req =>
           let path := results_root // req in
           if ~~ fs_exists fs path then rcons missing req else missing)
        acc reqs
  = acc ++ [seq req <- reqs | ~~ fs_exists fs (results_root // req)].
Proof.
  elim: reqs acc => [|req reqs IH] acc /=; first by rewrite cats0.
  by rewrite IH; case: (fs_exists fs _) => //=; rewrite -cats1 -catA.
Qed.

Lemma validate_results_structureE :
  DataLoader.validate_results_structure fs results_root
  = (nilp [seq req <- DataLoader.required
          | ~~ fs_exists fs (results_root // req)],
     [seq req <- DataLoader.required | ~~ fs_exists fs (results_root // req)]).
Proof. by rewrite /DataLoader.validate_results_structure missing_loopE. Qed.

Lemma validate_results_structure_same :
  Utils.validate_results_structure fs results_root
  = DataLoader.validate_results_structure fs results_root.
Proof. by []. Qed.

(** C10.  On every root the two results cohere: [is_valid] holds exactly
    when the missing list is empty, and the missing list is a subsequence,
    in order, of the two required names, hence of at most two entries and
    of no other name.  The validator of [utils.py] returns the same pair. *)
Theorem validate_results_coherent :
  let: (is_valid, missing) :=
    DataLoader.validate_results_structure fs results_root in
  [/\ is_valid = (missing == [::]),
      subseq missing [:: "explainability_reports/index.csv";
                         "explainability_reports/case_mapping.csv"],
      size missing <= 2
    & Utils.validate_results_structure fs results_root = (is_valid, missing)].
Proof.
  rewrite validate_results_structure_same validate_results_structureE.
  split=> //.
  - by case: (filter _ _).
  - exact: filter_subseq.
  - by rewrite size_filter (leq_trans (count_size _ _)).
Qed.

End Validator.

(** C6.  On a root where [explainability_reports/index.csv] exists and
    [explainability_reports/case_mapping.csv] does not, the validator
    returns [False] and the one-element list naming the case mapping; and
    on every root, every entry of the missing list is one of the required
    relative names, never an absolute path. *)
Theorem validate_missing_case_mapping (fs : FileSystem) (results_root : Path) :
  fs_exists fs (results_root // "explainability_reports/index.csv") ->
  ~~ fs_exists fs (results_root // "explainability_reports/case_mapping.csv") ->
  DataLoader.validate_results_structure fs results_root
  = (false, [:: "explainability_reports/case_mapping.csv"])
  /\ (forall fs' root',
        all (fun name => (name \in DataLoader.required) && ~~ is_absolute name)
            (DataLoader.validate_results_structure fs' root').2).
Proof.
  move=> has_index /negbTE no_mapping; split.
  - rewrite validate_results_structureE /DataLoader.required /=.
    by rewrite no_mapping has_index.
  - move=> fs' root'; rewrite validate_results_structureE [X in all _ X]/snd.
    rewrite all_filter; apply/allP => name.
    by rewrite !inE => /orP[] /eqP ->; rewrite implybT.
Qed.

Lemma validate_missing_case_mapping_witness :
  DataLoader.validate_results_structure sample_fs [:: "results"]
  = (false, [:: "explainability_reports/case_mapping.csv"]).
Proof.
  exact: (proj1 (@validate_missing_case_mapping sample_fs [:: "results"] isT isT)).
Defined.

(** ** Columns, draws and frames *)

Lemma size_draws (S A : Type) (draw : S -> A * S) (n : nat) (s : S) :
  size (draws draw n s).1 = n.
Proof.
  elim: n s => [|n IH] s //; rewrite /draws -/(draws draw n).
  case: (draw s) => x s1; case E: (draws draw n s1) => [xs s2] /=.
  by rewrite -(IH s1) E.
Qed.

Lemma risk_bands_loopE (band : float -> string) (ps : seq float) (acc : seq string) :
  foldl (fun risk_bands p => rcons risk_bands (band p)) acc ps
  = acc ++ [seq band p | p <- ps].
Proof.
  elim: ps acc => [|p ps IH] acc /=; first by rewrite cats0.
  by rewrite IH -cats1 -catA.
Qed.

Lemma DataFrame_of_columnsP (c pid : seq string) (f y : seq Z)
    (p u : seq float) (b : seq string) :
  size pid = size c -> size f = size c -> size y = size c ->
  size p = size c -> size u = size c -> size b = size c ->
  exists2 df, DataFrame_of_columns c pid f y p u b = Ok df
  & [/\ [seq case_id r | r <- df] = c,
        [seq p_calibrated r | r <- df] = p
      & [seq risk_band r | r <- df] = b].
Proof.
  move=> s1 s2 s3 s4 s5 s6.
  rewrite /DataFrame_of_columns s1 s2 s3 s4 s5 s6 !eqxx /=.
  eexists; first by [].
  have sz (A B : Type) (s : seq A) (t : seq B) :
      size s = size c -> size t = size c -> size (zip s t) = size c.
    by move=> ss st; rewrite size_zip ss st minnn.
  have z1 (A B C : Type) (g : A -> C) (s : seq A) (t : seq B) :
      size s = size c -> size t = size c ->
      [seq g x.1 | x <- zip s t] = [seq g x | x <- s].
    by move=> ss st; rewrite -{2}(@unzip1_zip _ _ s t) ?ss ?st // -map_comp.
  have z2 (A B C : Type) (g : B -> C) (s : seq A) (t : seq B) :
      size s = size c -> size t = size c ->
      [seq g x.2 | x <- zip s t] = [seq g x | x <- t].
    by move=> ss st; rewrite -{2}(@unzip2_zip _ _ s t) ?ss ?st // -map_comp.
  split; rewrite -map_comp.
  - rewrite (@eq_map _ _ _ (fun t => t.1.1.1.1.1.1)); first by do 6!case.
    rewrite (z1 _ _ _ (fun x => x.1.1.1.1.1)) ?sz //.
    rewrite (z1 _ _ _ (fun x => x.1.1.1.1)) ?sz //.
    rewrite (z1 _ _ _ (fun x => x.1.1.1)) ?sz //.
    rewrite (z1 _ _ _ (fun x => x.1.1)) ?sz //.
    rewrite (z1 _ _ _ (fun x => x.1)) ?sz //.
    by rewrite (z1 _ _ _ id) ?map_id.
  - rewrite (@eq_map _ _ _ (fun t => t.1.1.2)); first by do 6!case.
    rewrite (z1 _ _ _ (fun x => x.1.2)) ?sz //.
    rewrite (z1 _ _ _ (fun x => x.2)) ?sz //.
    by rewrite (z2 _ _ _ id) ?map_id ?sz.
  - rewrite (@eq_map _ _ _ (fun t => t.2)); first by do 6!case.
    by rewrite (z2 _ _ _ id) ?map_id ?sz.
Qed.

(** ** The demo data *)

Section DemoData.
Variable G : RandomGen.
Import BandPolicy.

Lemma eq_map_all (A : Type) (B : eqType) (f g : A -> B) (s : seq A) :
  [seq f x | x <- s] = [seq g x | x <- s] -> all (fun x => f x == g x) s.
Proof. by elim: s => [|x s IH] //= [-> /IH ->]; rewrite eqxx. Qed.

Lemma DataLoader_generate_demo_data_ok (st0 : rng_state G) :
  exists2 df, (DataLoader.generate_demo_data st0).1 = Ok df
  & [seq case_id r | r <- df]
      = [seq ("Case-" ++ fmt_02d i)%string | i <- iota 1 25]
    /\ all (fun r => risk_band r == DataLoader.band_of (p_calibrated r)) df.
Proof.
  rewrite /DataLoader.generate_demo_data.
  have := size_draws (rng_choice G [:: 0; 1; 2]%Z None) 25 (rng_seed G 42).
  case: (draws _ _ _) => folds st1 /= sz1.
  have := size_draws (rng_choice G [:: 0; 1]%Z (Some [:: 0.15%float; 0.85%float])) 25 st1.
  case: (draws _ _ _) => ys st2 /= sz2.
  have := size_draws (rng_beta G 3%float 4%float) 25 st2.
  case: (draws _ _ _) => ps st3 /= sz3.
  have := size_draws (rng_uniform G 0.02%float 0.15%float) 25 st3.
  case: (draws _ _ _) => us st4 /= sz4.
  rewrite (risk_bands_loopE DataLoader.band_of) cat0s.
  case: (@DataFrame_of_columnsP
           [seq ("Case-" ++ fmt_02d i)%string | i <- iota 1 25]
           [seq ("DEMO-" ++ str i)%string | i <- iota 1 25]
           folds ys ps us [seq DataLoader.band_of p | p <- ps]);
    rewrite ?size_map ?size_iota //.
  move=> df -> [ids pcs bands]; exists df => //; split=> //.
  by apply: eq_map_all; rewrite bands -pcs -map_comp.
Qed.

Lemma Utils_generate_demo_data_ok (st0 : rng_state G) :
  exists2 df, (Utils.generate_demo_data st0).1 = Ok df
  & all (fun r => risk_band r == Utils.band_of (p_calibrated r)) df.
Proof.
  rewrite /Utils.generate_demo_data.
  have := size_draws (rng_choice G [:: 0; 1; 2]%Z None) 20 (rng_seed G 42).
  case: (draws _ _ _) => folds st1 /= sz1.
  have := size_draws (rng_choice G [:: 0; 1]%Z (Some [:: 0.1%float; 0.9%float])) 20 st1.
  case: (draws _ _ _) => ys st2 /= sz2.
  case: (rng_random G st2) => x st3.
  have: size (if fgt x 0.5 then draws (rng_beta G 2%float 5%float) 20 st3
              else draws (rng_beta G 5%float 2%float) 20 st3).1 = 20.
    by case: (fgt x 0.5); rewrite size_draws.
  case: (if fgt x 0.5 then _ else _) => ps st4 /= sz3.
  have := size_draws (rng_uniform G 0.02%float 0.15%float) 20 st4.
  case: (draws _ _ _) => us st5 /= sz4.
  rewrite (risk_bands_loopE Utils.band_of) cat0s.
  case: (@DataFrame_of_columnsP
           [seq ("Case-" ++ fmt_02d i)%string | i <- iota 1 20]
           [seq ("DEMO-" ++ str i)%string | i <- iota 1 20]
           folds ys ps us [seq Utils.band_of p | p <- ps]);
    rewrite ?size_map ?size_iota //.
  move=> df -> [ids pcs bands]; exists df => //.
  by apply: eq_map_all; rewrite bands -pcs -map_comp.
Qed.

End DemoData.

Section Bands.
Import BandPolicy.

Lemma implied_band_mono (t1 t2 t3 p q : float) :
  fle p q ->
  band_rank (implied_band t1 t2 t3 p) <= band_rank (implied_band t1 t2 t3 q).
Proof.
  move=> le_pq; have below t : flt q t -> flt p t by exact: fle_flt_trans.
  rewrite /implied_band.
  case q1: (flt q t1); first by rewrite below.
  case q2: (flt q t2); first by rewrite (below t2) //; case: (flt p t1).
  case q3: (flt q t3).
    by rewrite (below t3) //; case: (flt p t1); case: (flt p t2).
  by case: (flt p t1); case: (flt p t2); case: (flt p t3).
Qed.

Lemma implied_band_bands (t1 t2 t3 p : float) :
  implied_band t1 t2 t3 p \in bands.
Proof.
  by rewrite /implied_band; case: (flt p t1); case: (flt p t2); case: (flt p t3).
Qed.

(** C8, where the code departs from it.  The two demo generators do not
    band by one policy.  Each stores in every row the band of the row's
    probability under thresholds of its own, 0.3, 0.5, 0.75 in
    [data_loader.py] and 0.3, 0.6, 0.8 in [utils.py], each an increasing
    triple within [0, 1].  The triples differ: a probability of 0.55 is
    MODERATE for the loader the app imports and LOW-MOD for [utils.py].
    So on equal draws the two frames store different bands for equal
    probabilities, and no policy that derives the band from the
    probability, whatever its thresholds, accounts for both frames. *)
Theorem demo_risk_band_policies_differ :
  [/\ forall (G : RandomGen) (st0 : rng_state G),
        (exists2 df, (DataLoader.generate_demo_data st0).1 = Ok df
           & all (fun r => risk_band r
                           == implied_band 0.3 0.5 0.75 (p_calibrated r)) df)
        /\ (exists2 df, (Utils.generate_demo_data st0).1 = Ok df
           & all (fun r => risk_band r
                           == implied_band 0.3 0.6 0.8 (p_calibrated r)) df),
      thresholds_ok 0.3 0.5 0.75 && thresholds_ok 0.3 0.6 0.8,
      implied_band 0.3 0.5 0.75 0.55 = "MODERATE"
      /\ implied_band 0.3 0.6 0.8 0.55 = "LOW-MOD"
    & exists dl ut,
        [/\ (@DataLoader.generate_demo_data (constant_gen 0.55) 0).1 = Ok dl,
            (@Utils.generate_demo_data (constant_gen 0.55) 0).1 = Ok ut,
            size dl = 25 /\ size ut = 20
          & forall policy : float -> string,
              ~~ (all (fun r => risk_band r == policy (p_calibrated r)) dl
                  && all (fun r => risk_band r == policy (p_calibrated r)) ut)]].
Proof.
  split=> //.
    move=> G st0; split; last exact: Utils_generate_demo_data_ok.
    by case: (DataLoader_generate_demo_data_ok st0) => df E [_ H]; exists df.
  eexists; eexists; split; [vm_compute; reflexivity | vm_compute; reflexivity
                           | by [] | ].
  move=> policy; apply/negP; rewrite [all _ _]/= [X in _ && X]/=.
  case/andP => /andP[/eqP dl_row _] /andP[/eqP ut_row _].
  by move: ut_row; rewrite -dl_row.
Qed.

(** C7.  In demo mode the loader returns one and the same bundle, and
    leaves the generator in one and the same state, whatever the file
    system, the root and the incoming generator state are: the case ids
    are [Case-01] to [Case-25] and every field of every row is fixed by
    the seed 42. *)
Theorem load_all_data_demo_deterministic (G : RandomGen) :
  exists (bundle : DataLoader.Bundle) (st : rng_state G),
    [/\ forall fs results_root st0,
          DataLoader.load_all_data fs results_root true st0 = (Ok bundle, st),
        DataLoader.is_demo bundle
      & exists2 df, DataLoader.index_df bundle = Some df
        & [seq case_id r | r <- df]
          = [seq ("Case-" ++ fmt_02d i)%string | i <- iota 1 25]].
Proof.
  case: (DataLoader_generate_demo_data_ok (rng_seed G 42)) => df.
  case E: (DataLoader.generate_demo_data _) => [r st] /= Er [ids _].
  eexists; exists st; split.
  - move=> fs results_root st0; rewrite /DataLoader.load_all_data.
    have -> : DataLoader.generate_demo_data st0
              = DataLoader.generate_demo_data (rng_seed G 42) by [].
    by rewrite E Er.
  - by [].
  - by exists df.
Qed.
End Bands.

(** ** Top-N *)

Section TopN.
Import TopNSpec.
Variable key : Row -> float.

Let has_value : pred Row := fun r => ~~ PrimFloat.is_nan (key r).

Lemma desc_by_total : {in has_value &, total (desc_by key)}.
Proof. by move=> r1 r2 v1 v2; rewrite /desc_by /fge fle_total. Qed.

Lemma desc_by_trans : transitive (desc_by key).
Proof. by move=> y x z xy yz; apply: fle_trans yz xy. Qed.

Lemma desc_by_descending : subrel (desc_by key) (descending key).
Proof. by move=> x y; rewrite /descending /desc_by => ->; rewrite orbT. Qed.

Lemma descending_trans : transitive (descending key).
Proof.
  move=> y x z; rewrite /descending.
  case: (PrimFloat.is_nan (key z)) => //= /orP[ynan|xy] yz.
  - by case/andP: (fle_notnan yz); rewrite ynan.
  - exact: fle_trans yz xy.
Qed.

(** Rows that all relate to one another are sorted, whatever their order. *)
Lemma all_related_sorted (e : rel Row) (a : pred Row) (s : seq Row) :
  transitive e -> (forall x y, a x -> a y -> e x y) -> all a s -> sorted e s.
Proof.
  move=> e_tr e_a; rewrite (sorted_pairwise e_tr).
  elim: s => [|x s IH] //= /andP[ax a_s]; rewrite IH // andbT.
  by apply/allP => y /(allP a_s); apply: e_a.
Qed.

Lemma nlargest_full_sorted (df : DataFrame) :
  sorted (descending key)
    (sort (desc_by key) [seq r <- df | ~~ PrimFloat.is_nan (key r)]
     ++ [seq r <- df | PrimFloat.is_nan (key r)]).
Proof.
  rewrite (sorted_pairwise descending_trans) pairwise_cat.
  rewrite -!(sorted_pairwise descending_trans); apply/and3P; split.
  - apply/allrelP => x y _; rewrite mem_filter /descending => /andP[-> _].
    by [].
  - apply: (sub_sorted desc_by_descending).
    by apply: (sort_sorted_in desc_by_total); apply: filter_all.
  - apply: (@all_related_sorted _ (fun r => PrimFloat.is_nan (key r))).
    + exact: descending_trans.
    + by move=> x y _ ynan; rewrite /descending ynan.
    + exact: filter_all.
Qed.

Lemma nlargest_full_tied (df : DataFrame) (v : float) :
  [seq r <- sort (desc_by key) [seq r <- df | ~~ PrimFloat.is_nan (key r)]
            ++ [seq r <- df | PrimFloat.is_nan (key r)] | tied key v r]
  = [seq r <- df | tied key v r].
Proof.
  have tied_value r : tied key v r -> has_value r by exact: feq_notnan.
  have nan_part :
      [seq r <- [seq r <- df | PrimFloat.is_nan (key r)] | tied key v r] = [::].
    rewrite -filter_predI; apply/eqP/negPn; rewrite -has_filter.
    apply/hasPn => r _ /=; case t: (tied key v r) => //=.
    exact: tied_value.
  have value_part :
      [seq r <- [seq r <- df | ~~ PrimFloat.is_nan (key r)] | tied key v r]
      = [seq r <- df | tied key v r].
    rewrite -filter_predI; apply: eq_filter => r /=.
    by case t: (tied key v r) => //=; apply: tied_value.
  rewrite filter_cat nan_part cats0.
  have desc_tr : {in has_value & &, transitive (desc_by key)}.
    by move=> x y z _ _ _; apply: desc_by_trans.
  rewrite (filter_sort_in desc_by_total desc_tr _ (filter_all _ _)).
  rewrite value_part.
  apply: (sorted_sort desc_by_trans).
  apply: (@all_related_sorted _ (tied key v)) (filter_all _ _).
  - exact: desc_by_trans.
  - by move=> x y tx ty; apply: (@feq_fle v).
Qed.

Lemma nlargest_full_perm (df : DataFrame) :
  perm_eq (sort (desc_by key) [seq r <- df | ~~ PrimFloat.is_nan (key r)]
           ++ [seq r <- df | PrimFloat.is_nan (key r)]) df.
Proof.
  rewrite perm_sym -(perm_filterC has_value df); apply: perm_cat.
  - by rewrite perm_sym perm_sort.
  - by rewrite (@eq_filter _ (predC has_value) (fun r => PrimFloat.is_nan (key r)))
         // => r /=; rewrite negbK.
Qed.

End TopN.

(** The model of [nlargest] is the spec's [topN], for every column,
    every [n] and every view. *)
Lemma nlargest_is_topN (n : nat) (key : Row -> float) (df : DataFrame) :
  TopNSpec.topN key n df (nlargest n key df).
Proof.
  rewrite /TopNSpec.topN /nlargest /=; set full := _ ++ _.
  have full_size : size full = size df.
    by rewrite (perm_size (nlargest_full_perm key df)).
  split.
  - exact/take_sorted/nlargest_full_sorted.
  - exists (drop n full); rewrite cat_take_drop.
    + exact: nlargest_full_perm.
    + exact: nlargest_full_sorted.
  - move=> v; rewrite -(nlargest_full_tied key df v) -/full.
    by rewrite -{2}(cat_take_drop n full) filter_cat prefix_prefix.
  - by rewrite size_take_min full_size.
  - move=> le_n; rewrite take_oversize ?full_size //; split.
    + exact: nlargest_full_perm.
    + exact: nlargest_full_tied.
Qed.

(** C5.  The dashboard's top-N is [nlargest]: for every filtered view, its
    table of high-risk cases is [topN] of the view by [p_calibrated] with
    [n = 5] and its table of uncertain cases is [topN] of the view by
    [uncertainty_std] with [n = 5]: ordered descending by the column, ties
    in the order of the view, all rows of the view when it has at most
    five.  With [nlargest] as the spec describes it, the same holds for
    every column and every [n]. *)
Theorem topN_via_nlargest (view : DataFrame) :
  [/\ TopNSpec.topN p_calibrated 5 view
        (App.top_high (App.dashboard_values view)),
      TopNSpec.topN uncertainty_std 5 view
        (App.top_uncert (App.dashboard_values view))
    & forall (key : Row -> float) (n : nat),
        TopNSpec.topN key n view (nlargest n key view)].
Proof.
  split; first exact: (nlargest_is_topN 5 p_calibrated view).
  - exact: (nlargest_is_topN 5 uncertainty_std view).
  - by move=> key n; apply: nlargest_is_topN.
Qed.

(** On the four sample rows (probabilities 0.2, 0.5, 0.9, 0.9) the table
    holds all of them, the two rows of 0.9 in their order in the view. *)
Lemma topN_via_nlargest_witness :
  perm_eq (App.top_high (App.dashboard_values sample_index)) sample_index
  /\ [seq case_id r | r <- App.top_high (App.dashboard_values sample_index)]
     = [:: "Case-03"; "Case-04"; "Case-02"; "Case-01"].
Proof.
  split; last by [].
  by case: (topN_via_nlargest sample_index) => -[_ _ _ _ /(_ isT) []].
Defined.

(** ** Means over an empty view *)

(** C3, where the code departs from it.  Over an empty view the mean the
    dashboard shows is NaN for every column, not 0: [page_dashboard]
    guards the percentage of high-risk rows against an empty view
    ([... if n_cases > 0 else 0]) but takes [Series.mean()] unguarded, and
    [compute_summary_metrics] returns the empty dict, which holds no mean
    at all.  The empty view is reached from a non-empty index by a filter
    that no row matches. *)
Theorem mean_of_empty_view_is_nan :
  [/\ forall column : Row -> float,
        PrimFloat.is_nan (Series_mean [seq column r | r <- [::]]),
      PrimFloat.is_nan (App.avg_prob (App.dashboard_values [::]))
      && PrimFloat.is_nan (App.avg_uncert (App.dashboard_values [::])),
      App.pct_high (App.dashboard_values [::]) = 0%float,
      Utils.dict_get (Utils.compute_summary_metrics [::]) "mean_probability"
      = None
    & if App.page_dashboard (Some sample_index) no_match_filters
           is Some (Ok shown)
      then (App.n_cases shown == 0) && PrimFloat.is_nan (App.avg_prob shown)
      else false].
Proof. by []. Qed.

(** ** More laws of the filter *)

Section FilterComposition.
Import FilterSpec.

Lemma SFltb_notleb (a b : spec_float) : SFltb a b -> SFleb b a = false.
Proof. SFOrder.by_cases2 a b. Qed.

Lemma flt_not_fle (x y : float) : flt x y -> fle y x = false.
Proof.
  rewrite /flt /fle FloatAxioms.ltb_spec FloatAxioms.leb_spec.
  exact: SFltb_notleb.
Qed.

(** X2.  Filtering in two steps: for every case index and filter states
    [f] and [g], filtering by [f] and then filtering the result by [g]
    keeps exactly the rows that satisfy both, in input order, and gives
    the same frame as filtering by [g] first and by [f] second. *)
Theorem filter_dataframe_commute (df : DataFrame) (f g : FilterState) :
  and_then (apply_filter f (Some df)) (fun out => apply_filter g (Some out))
  = Ok [seq r <- df | satisfies f r && satisfies g r]
  /\ and_then (apply_filter f (Some df)) (fun out => apply_filter g (Some out))
     = and_then (apply_filter g (Some df)) (fun out => apply_filter f (Some out)).
Proof.
  have step (h k : FilterState) :
      and_then (apply_filter h (Some df)) (fun out => apply_filter k (Some out))
      = Ok [seq r <- df | satisfies h r && satisfies k r].
    rewrite /apply_filter filter_dataframe_conj /and_then filter_dataframe_conj.
    by rewrite -filter_predI; congr Ok; apply: eq_filter => r /=; rewrite andbC.
  rewrite !step; split=> //; congr Ok; apply: eq_filter => r.
  by rewrite andbC.
Qed.

Lemma subseq_filter_imp (a b : pred Row) (s : seq Row) :
  (forall r, a r -> b r) -> subseq [seq r <- s | a r] [seq r <- s | b r].
Proof.
  move=> ab; have -> : [seq r <- s | a r] = [seq r <- [seq r <- s | b r] | a r].
    rewrite -filter_predI; apply: eq_filter => r /=.
    by case ar: (a r) => //; rewrite ab.
  exact: filter_subseq.
Qed.

(** X3.  Narrowing the probability range narrows the view: with the other
    constraints fixed, when [lo <= lo'] and [hi' <= hi] the rows selected
    for the range [lo', hi'] are a subsequence of the rows selected for
    [lo, hi]. *)
Theorem filter_dataframe_narrower (df : DataFrame) (f : FilterState)
    (lo lo' hi hi' : float) :
  fle lo lo' -> fle hi' hi ->
  exists2 wide,
    DataLoader.filter_dataframe (Some df) (risk_bands f) (y_true_values f)
      (folds f) (Some lo) (Some hi) (uncert_min f) (uncert_max f) = Ok wide
  & exists2 narrow,
      DataLoader.filter_dataframe (Some df) (risk_bands f) (y_true_values f)
        (folds f) (Some lo') (Some hi') (uncert_min f) (uncert_max f) = Ok narrow
    & subseq narrow wide.
Proof.
  move=> le_lo le_hi.
  pose fw := mkFilterState (risk_bands f) (y_true_values f) (folds f)
               (Some lo) (Some hi) (uncert_min f) (uncert_max f).
  pose fn := mkFilterState (risk_bands f) (y_true_values f) (folds f)
               (Some lo') (Some hi') (uncert_min f) (uncert_max f).
  exists [seq r <- df | satisfies fw r]; first exact: (filter_dataframe_conj df fw).
  exists [seq r <- df | satisfies fn r]; first exact: (filter_dataframe_conj df fn).
  apply: subseq_filter_imp => r; rewrite /satisfies /within /=.
  case: (member_or_any _ _) => //=; case: (member_or_any _ _) => //=.
  case: (member_or_any _ _) => //=.
  case/andP => /andP[lo_p p_hi] ->; rewrite andbT.
  by rewrite (fle_trans le_lo lo_p) (fle_trans p_hi le_hi).
Qed.

Lemma filter_dataframe_narrower_witness :
  exists2 wide,
    DataLoader.filter_dataframe (Some sample_index) None None None
      (Some 0.0%float) (Some 1.0%float) None None = Ok wide
  & exists2 narrow,
      DataLoader.filter_dataframe (Some sample_index) None None None
        (Some 0.5%float) (Some 0.9%float) None None = Ok narrow
    & subseq narrow wide.
Proof.
  exact: (@filter_dataframe_narrower sample_index
            (mkFilterState None None None None None None None)
            0.0%float 0.5%float 1.0%float 0.9%float isT isT).
Defined.

(** X4.  A probability range whose upper bound is below its lower bound
    selects nothing, whatever the frame and the other constraints. *)
Theorem filter_dataframe_inverted_range (df : DataFrame) (f : FilterState)
    (lo hi : float) :
  flt hi lo ->
  DataLoader.filter_dataframe (Some df) (risk_bands f) (y_true_values f)
    (folds f) (Some lo) (Some hi) (uncert_min f) (uncert_max f) = Ok [::].
Proof.
  move=> inverted.
  pose fi := mkFilterState (risk_bands f) (y_true_values f) (folds f)
               (Some lo) (Some hi) (uncert_min f) (uncert_max f).
  rewrite (filter_dataframe_conj df fi); congr Ok.
  apply/eqP/negPn; rewrite -has_filter; apply/hasPn => r _.
  rewrite /satisfies /within /=.
  case lo_p: (fle lo _); case p_hi: (fle _ hi); rewrite ?andbF //=.
  by have := fle_trans lo_p p_hi; rewrite (flt_not_fle inverted).
Qed.

Lemma filter_dataframe_inverted_range_witness :
  DataLoader.filter_dataframe (Some sample_index) None None None
    (Some 0.9%float) (Some 0.1%float) None None = Ok [::].
Proof.
  exact: (@filter_dataframe_inverted_range sample_index
            (mkFilterState None None None None None None None)
            0.9%float 0.1%float isT).
Defined.

End FilterComposition.

(** ** The filtered view of the pages *)

Section Pages.
Import FilterSpec.

Lemma apply_global_filtersE (df : DataFrame) (filters : App.Filters) :
  App.apply_global_filters (Some df) filters
  = Ok [seq r <- df | satisfies (filter_state_of filters) r].
Proof. exact: (filter_dataframe_conj df (filter_state_of filters)). Qed.

Lemma view_in_ranges (df : DataFrame) (filters : App.Filters) :
  all (in_view_ranges filters)
      [seq r <- df | satisfies (filter_state_of filters) r].
Proof.
  apply/allP => r; rewrite mem_filter => /andP[sat _]; move: sat.
  rewrite /satisfies /in_view_ranges /= => /and5P[_ _ _ pr ur].
  rewrite pr ur !andbT.
  case/andP: pr => /fle_notnan/andP[_ ->] _.
  by case/andP: ur => /fle_notnan/andP[_ ->] _.
Qed.

(** X5.  The view of a page never holds a row with a missing value:
    [apply_global_filters] on a present index returns a frame, and every
    row of it has a probability and an uncertainty that are numbers (not
    NaN) within the two ranges of the filters, which default to
    [(0.0, 1.0)].  This holds for every filters dict, the empty one
    included. *)
Theorem apply_global_filters_values_present (df : DataFrame)
    (filters : App.Filters) :
  exists2 view, App.apply_global_filters (Some df) filters = Ok view
  & subseq view df /\ all (in_view_ranges filters) view.
Proof.
  exists [seq r <- df | satisfies (filter_state_of filters) r].
    exact: apply_global_filtersE.
  by split; [apply: filter_subseq | apply: view_in_ranges].
Qed.

Lemma nlargest_all_values (n : nat) (key : Row -> float) (s : DataFrame) :
  all (fun r => ~~ PrimFloat.is_nan (key r)) s ->
  nlargest n key s = take n (sort (desc_by key) s).
Proof.
  move=> vals; rewrite /nlargest; move/all_filterP: (vals) => ->.
  have -> : [seq r <- s | PrimFloat.is_nan (key r)] = [::].
    apply/eqP/negPn; rewrite -has_filter; apply/hasPn => r /(allP vals).
    by [].
  by rewrite cats0.
Qed.

Lemma nlargest_top (n : nat) (key : Row -> float) (s : DataFrame) :
  all (fun r => ~~ PrimFloat.is_nan (key r)) s ->
  [/\ sorted (desc_by key) (nlargest n key s),
      size (nlargest n key s) = minn n (size s),
      {subset nlargest n key s <= s}
    & forall r t, r \in s -> t \in nlargest n key s ->
                  r \notin nlargest n key s -> fge (key t) (key r)].
Proof.
  move=> vals; rewrite nlargest_all_values //.
  have srt : sorted (desc_by key) (sort (desc_by key) s).
    exact: (sort_sorted_in (@desc_by_total key) vals).
  split.
  - exact: take_sorted.
  - by rewrite size_take_min size_sort.
  - by move=> r /mem_take; rewrite mem_sort.
  - move=> r t r_s t_top r_out.
    move: srt; rewrite (sorted_pairwise (@desc_by_trans key)).
    rewrite -{1}(cat_take_drop n (sort _ s)) pairwise_cat => /and3P[rel _ _].
    apply: (allrelP rel) => //.
    move: r_s; rewrite -(mem_sort (desc_by key)) -{1}(cat_take_drop n (sort _ s)).
    by rewrite mem_cat (negbTE r_out).
Qed.

(** X6.  The figures the dashboard computes from the filtered view: for
    every index and filters, the view exists, the case count is its size
    and at most the size of the index, the high-risk count is at most the
    case count, and each of the two top-5 tables is sorted by plain [>=]
    on its column (no row of the view lacks a value), has
    [min(5, size of the view)] rows, all of them rows of the view, and
    every row of the view left out of a table has a value at most that of
    every row in it. *)
Theorem page_dashboard_values (df : DataFrame) (filters : App.Filters) :
  exists2 view, App.apply_global_filters (Some df) filters = Ok view
  & let shown := App.dashboard_values view in
    [/\ [/\ App.n_cases shown = size view, size view <= size df
          & App.n_high_risk shown <= App.n_cases shown],
        [/\ sorted (desc_by p_calibrated) (App.top_high shown),
            size (App.top_high shown) = minn 5 (size view),
            {subset App.top_high shown <= view}
          & forall r t, r \in view -> t \in App.top_high shown ->
              r \notin App.top_high shown ->
              fge (p_calibrated t) (p_calibrated r)]
      & [/\ sorted (desc_by uncertainty_std) (App.top_uncert shown),
            size (App.top_uncert shown) = minn 5 (size view),
            {subset App.top_uncert shown <= view}
          & forall r t, r \in view -> t \in App.top_uncert shown ->
              r \notin App.top_uncert shown ->
              fge (uncertainty_std t) (uncertainty_std r)]].
Proof.
  have vals := view_in_ranges df filters.
  exists [seq r <- df | satisfies (filter_state_of filters) r].
    exact: apply_global_filtersE.
  split.
  - split=> //=; first by rewrite size_filter count_size.
    by rewrite size_filter count_size.
  - by apply: nlargest_top; apply: sub_all vals => r /and4P[].
  - by apply: nlargest_top; apply: sub_all vals => r /and4P[].
Qed.

End Pages.

(** On the four sample rows with the default ranges the view is the whole
    index and the table of high-risk cases lists all four. *)
Lemma page_dashboard_values_witness :
  exists2 view,
    App.apply_global_filters (Some sample_index)
      (App.mkFilters None None None None None) = Ok view
  & App.n_cases (App.dashboard_values view) = 4
    /\ [seq case_id r | r <- App.top_high (App.dashboard_values view)]
       = [:: "Case-03"; "Case-04"; "Case-02"; "Case-01"].
Proof.
  case: (page_dashboard_values sample_index
           (App.mkFilters None None None None None)) => view E _.
  exists view => //.
  have [<-] : Ok sample_index = Ok view by rewrite -E.
  by [].
Defined.

(** ** Artifacts and the loaded bundle *)

Section Artifacts.
Variables (fs : FileSystem) (results_root : Path).

Lemma pjoin2 (p : Path) (a b : string) :
  p // a // b = p ++ components "" a ++ components "" b.
Proof. by rewrite /pjoin catA. Qed.

Lemma check_artifacts_keys :
  [seq kv.1 | kv <- DataLoader.check_artifacts fs results_root] = artifact_keys.
Proof. by rewrite /DataLoader.check_artifacts; case: (fs_exists fs _). Qed.

Lemma check_artifactsE :
  let a := DataLoader.check_artifacts fs results_root in
  [/\ available a "index_csv"
      = fs_exists fs (results_root // "explainability_reports" // "index.csv"),
      available a "case_mapping"
      = fs_exists fs (results_root // "explainability_reports" // "case_mapping.csv"),
      available a "metrics_summary"
      = fs_exists fs (results_root // "patient_metrics_summary.csv"),
      available a "run_config"
      = fs_exists fs (results_root // "run_config.json")
    & available a "case_images" = (0 < image_count a)].
Proof.
  rewrite /DataLoader.check_artifacts.
  by case: (fs_exists fs (results_root // "explainability_reports")).
Qed.

(** The validator's verdict in terms of the two files, each addressed as
    the loaders address it (folder, then file). *)
Lemma is_validE :
  (DataLoader.validate_results_structure fs results_root).1
  = fs_exists fs (results_root // "explainability_reports" // "index.csv")
    && fs_exists fs (results_root // "explainability_reports" // "case_mapping.csv").
Proof.
  rewrite validate_results_structureE /DataLoader.required [filter _ _]/= !pjoin2.
  have -> : results_root // "explainability_reports/index.csv"
            = results_root ++ components "" "explainability_reports"
              ++ components "" "index.csv" by [].
  have -> : results_root // "explainability_reports/case_mapping.csv"
            = results_root ++ components "" "explainability_reports"
              ++ components "" "case_mapping.csv" by [].
  by do 2!case: (fs_exists fs _).
Qed.

(** X7.  The validator and the artifact check agree: a results folder is
    valid exactly when [check_artifacts] reports both [index_csv] and
    [case_mapping] available, although the first addresses each file by
    one relative name and the second by folder and file; and the
    artifacts dict always has the same ten keys, with [case_images] set
    exactly when the image count is positive. *)
Theorem validate_agrees_with_check_artifacts :
  let a := DataLoader.check_artifacts fs results_root in
  [/\ (DataLoader.validate_results_structure fs results_root).1
      = available a "index_csv" && available a "case_mapping",
      [seq kv.1 | kv <- a] = artifact_keys
    & available a "case_images" = (0 < image_count a)].
Proof.
  case: check_artifactsE => Ei Em _ _ Ec; split=> //.
  - by rewrite Ei Em is_validE.
  - exact: check_artifacts_keys.
Qed.

End Artifacts.

Section RealLoad.
Variables (G : RandomGen) (fs : FileSystem) (results_root : Path).

Let index_path := results_root // "explainability_reports" // "index.csv".
Let mapping_path := results_root // "explainability_reports" // "case_mapping.csv".

Lemma load_all_data_real (st : rng_state G) :
  DataLoader.load_all_data fs results_root false st
  = (Ok (DataLoader.mkBundle
           (DataLoader.load_index_csv fs results_root)
           (DataLoader.load_case_mapping fs results_root)
           (DataLoader.load_metrics_summary fs results_root)
           (DataLoader.load_run_config fs results_root)
           (DataLoader.check_artifacts fs results_root) false), st).
Proof. by []. Qed.

(** X8.  Whenever [load_all_data] returns outside demo mode, the bundle
    is not flagged as demo, the random generator is left as it was, and
    whatever part of the bundle is loaded (index, case mapping, metrics
    summary, run configuration) is reported available in the bundle's
    artifacts. *)
Theorem load_all_data_loaded_is_available (st st' : rng_state G)
    (bundle : DataLoader.Bundle) :
  DataLoader.load_all_data fs results_root false st = (Ok bundle, st') ->
  [/\ st' = st, ~~ DataLoader.is_demo bundle
    & [/\ DataLoader.index_df bundle ->
            available (DataLoader.artifacts bundle) "index_csv",
          DataLoader.case_mapping bundle ->
            available (DataLoader.artifacts bundle) "case_mapping",
          DataLoader.metrics_summary bundle ->
            available (DataLoader.artifacts bundle) "metrics_summary"
        & DataLoader.run_config bundle ->
            available (DataLoader.artifacts bundle) "run_config"]].
Proof.
  rewrite load_all_data_real => -[<- <-]; split=> //.
  case: (check_artifactsE fs results_root) => /= -> -> -> -> _.
  rewrite /DataLoader.load_index_csv /DataLoader.load_case_mapping.
  rewrite /DataLoader.load_metrics_summary /DataLoader.load_run_config.
  by split=> //; case: (fs_exists fs _).
Qed.

(** X9.  On a folder the validator accepts, the index and the case mapping
    of the bundle are exactly what reading the two files gives: absent
    only when the read itself fails. *)
Theorem load_all_data_valid_root (st : rng_state G) :
  (DataLoader.validate_results_structure fs results_root).1 ->
  exists2 bundle,
    DataLoader.load_all_data fs results_root false st = (Ok bundle, st)
  & DataLoader.index_df bundle = try_or_None (fs_read_index fs index_path)
    /\ DataLoader.case_mapping bundle
       = try_or_None (fs_read_mapping fs mapping_path).
Proof.
  rewrite is_validE => /andP[has_i has_m].
  eexists; first exact: load_all_data_real.
  rewrite /= /DataLoader.load_index_csv /DataLoader.load_case_mapping.
  by rewrite -/index_path -/mapping_path has_i has_m.
Qed.

(** X10.  On a folder where the validator lists the index as missing, the
    bundle has no index and the dashboard returns before filtering. *)
Theorem load_all_data_missing_index (st : rng_state G) (filters : App.Filters) :
  "explainability_reports/index.csv"
    \in (DataLoader.validate_results_structure fs results_root).2 ->
  exists2 bundle,
    DataLoader.load_all_data fs results_root false st = (Ok bundle, st)
  & DataLoader.index_df bundle = None
    /\ App.page_dashboard (DataLoader.index_df bundle) filters = None.
Proof.
  rewrite validate_results_structureE [X in _ \in X]/snd mem_filter.
  case/andP => no_index _.
  have E : index_path = results_root // "explainability_reports/index.csv".
    by rewrite /index_path /pjoin -catA.
  have none : DataLoader.load_index_csv fs results_root = None.
    by rewrite /DataLoader.load_index_csv -/index_path E no_index.
  eexists; first exact: load_all_data_real.
  by rewrite [DataLoader.index_df _]/= none.
Qed.

End RealLoad.

Lemma load_all_data_loaded_is_available_witness :
  available (DataLoader.check_artifacts full_fs [:: "results"]) "index_csv"
  /\ available (DataLoader.check_artifacts full_fs [:: "results"])
       "case_mapping".
Proof.
  case: (@load_all_data_loaded_is_available sample_gen full_fs [:: "results"]
           0 0 _
           (@load_all_data_real sample_gen full_fs [:: "results"] 0))
    => _ _ [has_index has_mapping _ _].
  by split; [apply: has_index | apply: has_mapping].
Defined.

Lemma load_all_data_valid_root_witness :
  exists2 bundle,
    @DataLoader.load_all_data sample_gen full_fs [:: "results"] false 0
    = (Ok bundle, 0)
  & DataLoader.index_df bundle = Some sample_index
    /\ DataLoader.case_mapping bundle = Some [::].
Proof.
  exact: (@load_all_data_valid_root sample_gen full_fs [:: "results"] 0 isT).
Defined.

Lemma load_all_data_missing_index_witness :
  exists2 bundle,
    @DataLoader.load_all_data sample_gen empty_fs [:: "results"] false 0
    = (Ok bundle, 0)
  & DataLoader.index_df bundle = None
    /\ App.page_dashboard (DataLoader.index_df bundle) no_match_filters = None.
Proof.
  exact: (@load_all_data_missing_index sample_gen empty_fs [:: "results"] 0
            no_match_filters isT).
Defined.

(** ** The summary metrics *)

Section Summary.

Lemma value_countsP (s : seq string) :
  [/\ uniq [seq kv.1 | kv <- value_counts s],
      [seq kv.1 | kv <- value_counts s] =i s,
      all (fun kv => (0 < kv.2) && (kv.2 == count_mem kv.1 s)) (value_counts s),
      sorted (fun a b => b.2 <= a.2) (value_counts s)
    & sumn [seq kv.2 | kv <- value_counts s] = size s].
Proof.
  rewrite /value_counts; set raw := [seq (v, count_mem v s) | v <- undup s].
  have raw1 : [seq kv.1 | kv <- raw] = undup s.
    by rewrite /raw -map_comp map_id_in.
  have perm1 : perm_eq [seq kv.1 | kv <- sort (fun a b => b.2 <= a.2) raw] (undup s).
    by rewrite -raw1 perm_map // perm_sort.
  split.
  - by rewrite (perm_uniq perm1) undup_uniq.
  - by move=> v; rewrite (perm_mem perm1) mem_undup.
  - rewrite all_sort /raw all_map; apply/allP => v /=.
    by rewrite mem_undup eqxx andbT lt0n => /count_memPn/eqP.
  - by apply: sort_sorted => a b; exact: leq_total.
  - rewrite (perm_sumn (perm_map _ (permEl (perm_sort _ _)))) /raw -map_comp.
    rewrite -(perm_size (perm_count_undup s)) size_flatten /shape -map_comp.
    by congr sumn; apply: eq_map => v /=; rewrite size_nseq.
Qed.

Lemma Series_sum_binary (ys : seq Z) (acc : Z) :
  all (fun y => y \in [:: 0; 1]%Z) ys ->
  (foldl Z.add acc ys + Z.of_nat (count (fun y => y == 0%Z) ys)
   = acc + Z.of_nat (size ys))%Z.
Proof.
  elim: ys acc => [|y ys IH] acc; first by [].
  rewrite [all _ _]/= !inE => /andP[y01 bin].
  rewrite [foldl _ _ _]/= [count _ _]/= [size _]/= Nat2Z.inj_succ.
  case/orP: y01 => /eqP ->.
  - rewrite eqxx add1n Nat2Z.inj_succ; move: (IH (acc + 0)%Z bin).
    move: (foldl _ _ _) (Z.of_nat (count _ _)) (Z.of_nat (size _)); lia.
  - have -> : (1%Z == 0%Z) = false by [].
    rewrite add0n; move: (IH (acc + 1)%Z bin).
    move: (foldl _ _ _) (Z.of_nat (count _ _)) (Z.of_nat (size _)); lia.
Qed.

(** X11.  The summary of a non-empty frame with binary classes is
    consistent with the frame: [n_cases] is the number of rows, [n_masld]
    and [n_healthy] add up to it, and the risk-band distribution lists
    each band once, with the number of rows of that band, the counts
    adding up to the number of rows. *)
Theorem compute_summary_metrics_counts (df : DataFrame) :
  df != [::] -> all (fun r => y_true r \in [:: 0; 1]%Z) df ->
  exists n_masld n_healthy dist,
    let metrics := Utils.compute_summary_metrics df in
    [/\ Utils.dict_get metrics "n_cases" = Some (Utils.MInt (Z.of_nat (size df))),
        Utils.dict_get metrics "n_masld" = Some (Utils.MInt n_masld),
        Utils.dict_get metrics "n_healthy" = Some (Utils.MInt n_healthy),
        (n_masld + n_healthy = Z.of_nat (size df))%Z
      & Utils.dict_get metrics "risk_band_dist" = Some (Utils.MDist dist)
        /\ [/\ sumn [seq kv.2 | kv <- dist] = size df,
               uniq [seq kv.1 | kv <- dist]
             & forall r, r \in df ->
                 (risk_band r, count (fun r' => risk_band r' == risk_band r) df)
                   \in dist]].
Proof.
  case: df => [|r0 df] // _ bin.
  exists (Series_sum [seq y_true r | r <- r0 :: df]),
         (Z.of_nat (count (fun r => y_true r == 0%Z) (r0 :: df))),
         (value_counts [seq risk_band r | r <- r0 :: df]).
  case: (value_countsP [seq risk_band r | r <- r0 :: df]) => uq mem cnt _ total.
  split=> //.
  - rewrite /Series_sum -(size_map y_true) -[RHS]Z.add_0_l.
    rewrite -(Series_sum_binary 0) ?all_map // count_map.
    by [].
  - split; first by [].
    split=> //; first by rewrite total size_map.
    move=> r r_df.
    have: risk_band r
            \in [seq kv.1 | kv <- value_counts [seq risk_band r | r <- r0 :: df]].
      by rewrite mem; apply: map_f.
    case/mapP => -[b c] in_dist /= Eb; move/allP: cnt => /(_ _ in_dist) /=.
    case/andP => _ /eqP Ec; move: in_dist; rewrite Ec -Eb count_map.
    by [].
Qed.

End Summary.

Lemma compute_summary_metrics_counts_witness :
  exists n_masld n_healthy dist,
    [/\ Utils.dict_get (Utils.compute_summary_metrics sample_index) "n_masld"
        = Some (Utils.MInt n_masld),
        Utils.dict_get (Utils.compute_summary_metrics sample_index) "n_healthy"
        = Some (Utils.MInt n_healthy),
        (n_masld + n_healthy = 4)%Z
      & Utils.dict_get (Utils.compute_summary_metrics sample_index)
          "risk_band_dist" = Some (Utils.MDist dist)].
Proof.
  case: (@compute_summary_metrics_counts sample_index isT isT)
    => m [h [dist [_ Em Eh sum [Ed _]]]].
  by exists m, h, dist.
Defined.

(** ** The session keys of the filter bar *)

Section Keys.

Lemma chars_append (a b : string) :
  list_ascii_of_string (a ++ b)
  = list_ascii_of_string a ++ list_ascii_of_string b.
Proof. by elim: a => [|c a IH] //=; rewrite IH. Qed.

Lemma chars_inj : injective list_ascii_of_string.
Proof. exact: (can_inj string_of_list_ascii_of_string). Qed.

Lemma append_eq_l (p f g : string) :
  ((p ++ f)%string == (p ++ g)%string) = (f == g).
Proof.
  apply/eqP/eqP => [|-> //]; elim: p => [|c p IH] //= [].
  exact: IH.
Qed.

Lemma append_eq_r (p q f : string) :
  ((p ++ f)%string == (q ++ f)%string) = (p == q).
Proof.
  apply/eqP/eqP => [|-> //] /(congr1 list_ascii_of_string).
  rewrite !chars_append => /(congr1 rev); rewrite !rev_cat => E.
  apply/chars_inj/(can_inj revK).
  by have /eqP := E; rewrite eqseq_cat // => /andP[_ /eqP].
Qed.

(** Two keys whose last [k] characters differ are different keys. *)
Lemma append_tail_neq (k : nat) (p q f g : string) :
  k <= String.length f -> k <= String.length g ->
  take k (rev (list_ascii_of_string f)) != take k (rev (list_ascii_of_string g)) ->
  (p ++ f)%string != (q ++ g)%string.
Proof.
  have len s : String.length s = size (list_ascii_of_string s).
    by elim: s => [|c s IH] //=; rewrite IH.
  rewrite !len => kf kg; apply: contraNneq => /(congr1 list_ascii_of_string).
  rewrite !chars_append => /(congr1 rev); rewrite !rev_cat => /(congr1 (take k)).
  by rewrite !takel_cat ?size_rev // => ->.
Qed.

Lemma filter_keys_disjoint (p q f g : string) :
  f \in filter_fields -> g \in filter_fields -> p != q ->
  (p ++ f)%string != (q ++ g)%string.
Proof.
  rewrite !inE => Hf Hg pq.
  have [->|fg] := eqVneq f g; first by rewrite append_eq_r.
  move: fg; case/or4P: Hf => [/eqP->|/eqP->|/eqP->|/orP[/eqP->|/eqP->]];
  case/or4P: Hg => [/eqP->|/eqP->|/eqP->|/orP[/eqP->|/eqP->]] => //= _;
  first [by apply: (@append_tail_neq 6) | by apply: (@append_tail_neq 7)].
Qed.

End Keys.

(** ** The maximum of a column *)

Section FloatMax.

Lemma SFltb_leb (a b : spec_float) : SFltb a b -> SFleb a b.
Proof. SFOrder.by_cases2 a b. Qed.

Lemma SFnltb_leb (a b : spec_float) :
  ~~ sf_is_nan a -> ~~ sf_is_nan b -> SFltb a b = false -> SFleb b a.
Proof. SFOrder.by_cases2 a b. Qed.

Lemma flt_fle (x y : float) : flt x y -> fle x y.
Proof.
  rewrite /flt /fle FloatAxioms.ltb_spec FloatAxioms.leb_spec.
  exact: SFltb_leb.
Qed.

Lemma not_flt_fle (x y : float) :
  ~~ PrimFloat.is_nan x -> ~~ PrimFloat.is_nan y -> flt x y = false -> fle y x.
Proof.
  rewrite !is_nanE /flt /fle FloatAxioms.ltb_spec FloatAxioms.leb_spec.
  exact: SFnltb_leb.
Qed.

Lemma fle_refl (x : float) : ~~ PrimFloat.is_nan x -> fle x x.
Proof. by move=> v; have := fle_total v v; rewrite orbb. Qed.

Lemma fmax_ge (a x : float) :
  ~~ PrimFloat.is_nan a -> ~~ PrimFloat.is_nan x ->
  [/\ fle a (fmax a x), fle x (fmax a x) & ~~ PrimFloat.is_nan (fmax a x)].
Proof.
  move=> va vx; rewrite /fmax; case lt: (flt a x); split=> //.
  - exact: flt_fle.
  - exact: fle_refl.
  - exact: fle_refl.
  - exact: not_flt_fle.
Qed.

Lemma foldl_fmax_ge (a : float) (l : seq float) :
  ~~ PrimFloat.is_nan a -> all (fun x => ~~ PrimFloat.is_nan x) l ->
  fle a (foldl fmax a l) /\ all (fun x => fle x (foldl fmax a l)) l.
Proof.
  elim: l a => [|x l IH] a va /=; first by split=> //; apply: fle_refl.
  case/andP => vx vl; case: (fmax_ge va vx) => a_m x_m vm.
  case: (IH _ vm vl) => m_top ->; rewrite andbT.
  by split; [apply: fle_trans a_m m_top | apply: fle_trans x_m m_top].
Qed.

(** Every value of the column is at most [Series.max()]. *)
Lemma Series_max_ge (s : seq float) (x : float) :
  x \in s -> ~~ PrimFloat.is_nan x -> fle x (Series_max s).
Proof.
  move=> x_s vx; rewrite /Series_max.
  have: x \in [seq y <- s | ~~ PrimFloat.is_nan y] by rewrite mem_filter vx.
  have: all (fun y => ~~ PrimFloat.is_nan y) [seq y <- s | ~~ PrimFloat.is_nan y].
    exact: filter_all.
  case: (filter _ s) => [|v vs] //= /andP[vv vvs].
  case: (foldl_fmax_ge vv vvs) => v_top /allP tops.
  by rewrite inE => /orP[/eqP ->|/tops].
Qed.

End FloatMax.

(** ** The filter bar and the session *)

Section Session.
Import Ui.

Lemma ss_get_set (st : SessionState) (k k' : string) (v : SessionVal) :
  ss_get (ss_set st k v) k' = if k' == k then Some v else ss_get st k'.
Proof.
  rewrite /ss_get /ss_set /Utils.dict_get /= eq_sym.
  case: eqP => [//|/eqP neq]; rewrite -filter_predI.
  congr (if _ is _ :: _ then _ else _); apply: eq_filter => kv /=.
  by case: eqP => // ->; rewrite neq.
Qed.

(** [if key not in state: state[key] = d] *)
Lemma ss_get_setdefault (st : SessionState) (k k' : string) (d : SessionVal) :
  ss_get (if ss_get st k is None then ss_set st k d else st) k'
  = if ss_get st k' is Some v then Some v
    else if k' == k then Some d else None.
Proof.
  case E: (ss_get st k) => [v|].
  - case E': (ss_get st k') => [v'|] //; case: eqP => // kk.
    by rewrite kk E in E'.
  - rewrite ss_get_set; case: eqP => [->|_]; first by rewrite E.
    by case: (ss_get st k').
Qed.

Lemma ss_get_init (st : SessionState) (df : DataFrame) (p key : string) :
  ss_get (init_filter_keys st df p) key
  = if ss_get st key is Some v then Some v
    else if key == (p ++ "_risk_bands")%string then Some (StrList [::])
    else if key == (p ++ "_y_true")%string then Some (IntList [::])
    else if key == (p ++ "_folds")%string then Some (IntList [::])
    else if key == (p ++ "_prob_range")%string then Some (Range (0.0, 1.0)%float)
    else if key == (p ++ "_uncert_range")%string
      then Some (Range (0.0%float, Series_max [seq uncertainty_std r | r <- df]))
    else None.
Proof.
  rewrite /init_filter_keys !ss_get_setdefault.
  case: (ss_get st key) => //.
  by do 5![case: (key == _) => //].
Qed.

(** The session after one run of the bar on a non-empty index: the five
    keys hold the widgets' values, or the defaults when the reset button
    was pressed; every other key is as before. *)
Lemma bar_get (st : SessionState) (r : Row) (s : DataFrame) (p : string)
    (w : Widgets) (key : string) :
  ss_get (render_global_filter_bar st (Some (r :: s)) p w).1 key
  = let v := if reset_button w then default_widgets (r :: s) else w in
    if key == (p ++ "_uncert_range")%string then Some (Range (uncert_slider v))
    else if key == (p ++ "_prob_range")%string then Some (Range (prob_slider v))
    else if key == (p ++ "_folds")%string then Some (IntList (fold_select v))
    else if key == (p ++ "_y_true")%string then Some (IntList (class_select v))
    else if key == (p ++ "_risk_bands")%string
      then Some (StrList (risk_select v))
    else ss_get st key.
Proof.
  rewrite /render_global_filter_bar.
  case: (reset_button w); rewrite [fst _]/= !ss_get_set ss_get_init;
    do 5![case: (key == _) => //]; by case: (ss_get st key).
Qed.

Lemma bar_widgets (st : SessionState) (r : Row) (s : DataFrame) (p : string)
    (w : Widgets) :
  let st' := (render_global_filter_bar st (Some (r :: s)) p w).1 in
  let v := if reset_button w then default_widgets (r :: s) else w in
  [/\ get_strs st' (p ++ "_risk_bands")%string [::] = risk_select v,
      get_ints st' (p ++ "_y_true")%string [::] = class_select v,
      get_ints st' (p ++ "_folds")%string [::] = fold_select v,
      get_range st' (p ++ "_prob_range")%string (0.0, 1.0)%float
      = prob_slider v
    & get_range st' (p ++ "_uncert_range")%string (0.0, 1.0)%float
      = uncert_slider v].
Proof.
  by split; rewrite /get_strs /get_ints /get_range bar_get !append_eq_l.
Qed.

Lemma bar_other_keys (st : SessionState) (index_df : option DataFrame)
    (p : string) (w : Widgets) (key : string) :
  key \notin filter_keys p ->
  ss_get (render_global_filter_bar st index_df p w).1 key = ss_get st key.
Proof.
  case: index_df => [[|r s]|] //; rewrite bar_get /filter_keys /= !inE !negb_or.
  by case/and5P => /negbTE-> /negbTE-> /negbTE-> /negbTE-> /negbTE->.
Qed.

Lemma bar_outcome (st : SessionState) (r : Row) (s : DataFrame) (p : string)
    (w : Widgets) :
  render_global_filter_bar st (Some (r :: s)) p w
  = ((render_global_filter_bar st (Some (r :: s)) p w).1,
     if reset_button w then Reruns
     else Returns (filters_of_widgets w)).
Proof.
  case: (bar_widgets st r s p w); rewrite /render_global_filter_bar.
  case: (reset_button w) => //; rewrite [fst _]/= => E1 E2 E3 E4 E5.
  by rewrite E1 E2 E3 E4 E5.
Qed.

(** X12.  The bar returns what the widgets hold and the session keeps it:
    on a non-empty index, when the reset button is not pressed,
    [render_global_filter_bar] returns the filters dict made of the five
    widget values, whatever the session held before, and afterwards the
    five session keys of its prefix hold these values. *)
Theorem render_global_filter_bar_keeps_selection (st : SessionState)
    (df : DataFrame) (p : string) (w : Widgets) :
  df != [::] -> ~~ reset_button w ->
  exists2 st',
    render_global_filter_bar st (Some df) p w
    = (st', Returns (filters_of_widgets w))
  & [seq ss_get st' key | key <- filter_keys p]
    = [:: Some (StrList (risk_select w)); Some (IntList (class_select w));
          Some (IntList (fold_select w)); Some (Range (prob_slider w));
          Some (Range (uncert_slider w))].
Proof.
  case: df => [|r s] // _ no_reset.
  exists (render_global_filter_bar st (Some (r :: s)) p w).1.
    by rewrite {1}bar_outcome (negbTE no_reset).
  by rewrite /filter_keys [map _ _]/= !bar_get (negbTE no_reset) !append_eq_l.
Qed.

(** X13.  The bars of two pages do not interfere: a run of the bar with
    prefix [p], whatever the index, the widgets and the reset button,
    leaves each of the five session keys of a different prefix [q] as it
    was. *)
Theorem render_global_filter_bar_isolated (st : SessionState)
    (index_df : option DataFrame) (p q : string) (w : Widgets)
    (field : string) :
  p != q -> field \in filter_fields ->
  ss_get (render_global_filter_bar st index_df p w).1 (q ++ field)%string
  = ss_get st (q ++ field)%string.
Proof.
  move=> pq in_fields; apply: bar_other_keys.
  apply/mapP => -[g in_g] /eqP; apply/negP.
  by apply: filter_keys_disjoint => //; rewrite eq_sym.
Qed.

Lemma identity_at_defaults (df : DataFrame) :
  all values_in_range df ->
  App.apply_global_filters (Some df) (filters_of_widgets (default_widgets df))
  = Ok df.
Proof.
  move=> /allP ranges; apply: apply_global_filters_identity => //=.
  - rewrite /FilterSpec.full_range all_map; apply/allP => r /ranges.
    by rewrite /values_in_range /FilterSpec.within /= => /and3P[-> ->].
  - rewrite /FilterSpec.full_range all_map; apply/allP => r r_df.
    have /and3P[_ _ u0] := ranges r r_df.
    rewrite /FilterSpec.within /= u0 /=; apply: Series_max_ge.
      exact: map_f.
    by have /andP[] := fle_notnan u0.
Qed.

(** X14.  Reset writes the defaults and nothing reads them back: on a
    non-empty index, pressing the reset button makes the run stop in a
    rerun with the five session keys at their defaults (empty selections,
    [(0.0, 1.0)] and [(0.0, max uncertainty)]); on the next run the bar
    again returns the values of its widgets and stores them over the
    defaults, so the reset reaches the filters only if the widgets
    themselves return the defaults. *)
Theorem render_global_filter_bar_reset (st : SessionState)
    (df : DataFrame) (p : string) (w : Widgets) :
  df != [::] -> reset_button w ->
  exists2 st1,
    render_global_filter_bar st (Some df) p w = (st1, Reruns)
  & [seq ss_get st1 key | key <- filter_keys p]
    = [:: Some (StrList [::]); Some (IntList [::]); Some (IntList [::]);
          Some (Range (0.0, 1.0)%float);
          Some (Range (0.0%float,
                       Series_max [seq uncertainty_std r | r <- df]))]
    /\ forall w', ~~ reset_button w' ->
         exists2 st2,
           render_global_filter_bar st1 (Some df) p w'
           = (st2, Returns (filters_of_widgets w'))
         & [seq ss_get st2 key | key <- filter_keys p]
           = [:: Some (StrList (risk_select w'));
                 Some (IntList (class_select w'));
                 Some (IntList (fold_select w'));
                 Some (Range (prob_slider w'));
                 Some (Range (uncert_slider w'))].
Proof.
  case: df => [|r s] // _ reset.
  set st1 := (render_global_filter_bar st (Some (r :: s)) p w).1.
  exists st1; first by rewrite {1}bar_outcome reset.
  split.
    by rewrite /filter_keys [map _ _]/= !bar_get reset !append_eq_l.
  move=> w' no_reset.
  exists (render_global_filter_bar st1 (Some (r :: s)) p w').1.
    by rewrite {1}bar_outcome (negbTE no_reset).
  by rewrite /filter_keys [map _ _]/= !bar_get (negbTE no_reset) !append_eq_l.
Qed.

Lemma fresh_widgets (st : SessionState) (df : DataFrame) (p : string) :
  (forall key, key \in filter_keys p -> ss_get st key = None) ->
  untouched_widgets (init_filter_keys st df p) p = default_widgets df.
Proof.
  move=> fresh.
  rewrite /untouched_widgets /get_strs /get_ints /get_range !ss_get_init.
  by rewrite !fresh ?eqxx ?append_eq_l //; apply: map_f; rewrite !inE.
Qed.

(** X15.  The first view is the whole index: in a session that has none of
    the five keys, the bar initialises them to the defaults, widgets
    that return the values they are given return the defaults, and the
    filters the bar then returns make [apply_global_filters] return the
    index unchanged, provided its rows have a probability in [0, 1] and a
    non-negative uncertainty. *)
Theorem render_global_filter_bar_first_run (st : SessionState)
    (df : DataFrame) (p : string) :
  df != [::] -> all values_in_range df ->
  (forall key, key \in filter_keys p -> ss_get st key = None) ->
  untouched_widgets (init_filter_keys st df p) p = default_widgets df
  /\ exists st' filters,
       render_global_filter_bar st (Some df) p
         (untouched_widgets (init_filter_keys st df p) p)
       = (st', Returns filters)
       /\ App.apply_global_filters (Some df) filters = Ok df.
Proof.
  case: df => [|r s] // _ ranges fresh.
  have Ew := fresh_widgets (r :: s) fresh.
  split=> //.
  exists (render_global_filter_bar st (Some (r :: s)) p
            (default_widgets (r :: s))).1,
         (filters_of_widgets (default_widgets (r :: s))).
  by rewrite Ew {1}bar_outcome identity_at_defaults.
Qed.

End Session.

Lemma render_global_filter_bar_keeps_selection_witness :
  exists2 st',
    Ui.render_global_filter_bar [::] (Some sample_index) "dashboard"
      sample_widgets
    = (st', Ui.Returns (filters_of_widgets sample_widgets))
  & Ui.ss_get st' "dashboard_risk_bands" = Some (Ui.StrList [:: "HIGH"]).
Proof.
  case: (@render_global_filter_bar_keeps_selection [::] sample_index
           "dashboard" sample_widgets isT isT) => st' E [Erisk _ _ _ _].
  by exists st'.
Defined.

Lemma render_global_filter_bar_isolated_witness :
  Ui.ss_get
    (Ui.render_global_filter_bar [::] (Some sample_index) "dashboard"
       sample_widgets).1 "explorer_risk_bands"
  = None.
Proof.
  exact: (@render_global_filter_bar_isolated [::] (Some sample_index)
            "dashboard" "explorer" sample_widgets "_risk_bands" isT isT).
Defined.

Lemma render_global_filter_bar_reset_witness :
  exists2 st1,
    Ui.render_global_filter_bar [::] (Some sample_index) "dashboard"
      reset_widgets
    = (st1, Ui.Reruns)
  & Ui.ss_get st1 "dashboard_risk_bands" = Some (Ui.StrList [::])
    /\ (Ui.render_global_filter_bar st1 (Some sample_index) "dashboard"
          sample_widgets).2
       = Ui.Returns (filters_of_widgets sample_widgets).
Proof.
  case: (@render_global_filter_bar_reset [::] sample_index "dashboard"
           reset_widgets isT isT) => st1 E [[Erisk _ _ _ _] next].
  exists st1; first exact: E.
  split; first exact: Erisk.
  by case: (next sample_widgets isT) => st2 ->.
Defined.

Lemma render_global_filter_bar_first_run_witness :
  exists st' filters,
    Ui.render_global_filter_bar [::] (Some sample_index) "dashboard"
      (default_widgets sample_index)
    = (st', Ui.Returns filters)
    /\ App.apply_global_filters (Some sample_index) filters = Ok sample_index.
Proof.
  exact: (proj2 (@render_global_filter_bar_first_run [::] sample_index
                   "dashboard" isT isT (fun _ _ => erefl))).
Defined.

(** ** The demo frame within the data model *)

Section DemoModel.
Import BandPolicy.

Lemma all_draws (S A : Type) (P : pred A) (draw : S -> A * S) (n : nat) (s : S) :
  (forall s', P (draw s').1) -> all P (draws draw n s).1.
Proof.
  move=> Pdraw; elim: n s => [|n IH] s //; rewrite /draws -/(draws draw n).
  have := Pdraw s; case: (draw s) => x s1 /= Px.
  by have := IH s1; case: (draws draw n s1) => xs s2 /= ->; rewrite Px.
Qed.

Lemma DataFrame_of_columns_rows (c pid : seq string) (f y : seq Z)
    (p u : seq float) (b : seq string) :
  size pid = size c -> size f = size c -> size y = size c ->
  size p = size c -> size u = size c -> size b = size c ->
  exists2 df, DataFrame_of_columns c pid f y p u b = Ok df
  & [/\ size df = size c, [seq case_id r | r <- df] = c,
        [seq fold r | r <- df] = f, [seq y_true r | r <- df] = y
      & [/\ [seq p_calibrated r | r <- df] = p,
            [seq uncertainty_std r | r <- df] = u
          & [seq risk_band r | r <- df] = b]].
Proof.
  move=> s1 s2 s3 s4 s5 s6.
  rewrite /DataFrame_of_columns s1 s2 s3 s4 s5 s6 !eqxx /=.
  eexists; first by [].
  have sz (A B : Type) (s : seq A) (t : seq B) :
      size s = size c -> size t = size c -> size (zip s t) = size c.
    by move=> ss st; rewrite size_zip ss st minnn.
  have z1 (A B C : Type) (g : A -> C) (s : seq A) (t : seq B) :
      size s = size c -> size t = size c ->
      [seq g x.1 | x <- zip s t] = [seq g x | x <- s].
    by move=> ss st; rewrite -{2}(@unzip1_zip _ _ s t) ?ss ?st // -map_comp.
  have z2 (A B C : Type) (g : B -> C) (s : seq A) (t : seq B) :
      size s = size c -> size t = size c ->
      [seq g x.2 | x <- zip s t] = [seq g x | x <- t].
    by move=> ss st; rewrite -{2}(@unzip2_zip _ _ s t) ?ss ?st // -map_comp.
  split; first by rewrite size_map !sz.
  - rewrite -map_comp (@eq_map _ _ _ (fun t => t.1.1.1.1.1.1)); first by do 6!case.
    rewrite (z1 _ _ _ (fun x => x.1.1.1.1.1)) ?sz //.
    rewrite (z1 _ _ _ (fun x => x.1.1.1.1)) ?sz //.
    rewrite (z1 _ _ _ (fun x => x.1.1.1)) ?sz //.
    rewrite (z1 _ _ _ (fun x => x.1.1)) ?sz //.
    rewrite (z1 _ _ _ (fun x => x.1)) ?sz //.
    by rewrite (z1 _ _ _ id) ?map_id.
  - rewrite -map_comp (@eq_map _ _ _ (fun t => t.1.1.1.1.2)); first by do 6!case.
    rewrite (z1 _ _ _ (fun x => x.1.1.1.2)) ?sz //.
    rewrite (z1 _ _ _ (fun x => x.1.1.2)) ?sz //.
    rewrite (z1 _ _ _ (fun x => x.1.2)) ?sz //.
    rewrite (z1 _ _ _ (fun x => x.2)) ?sz //.
    by rewrite (z2 _ _ _ id) ?map_id ?sz.
  - rewrite -map_comp (@eq_map _ _ _ (fun t => t.1.1.1.2)); first by do 6!case.
    rewrite (z1 _ _ _ (fun x => x.1.1.2)) ?sz //.
    rewrite (z1 _ _ _ (fun x => x.1.2)) ?sz //.
    rewrite (z1 _ _ _ (fun x => x.2)) ?sz //.
    by rewrite (z2 _ _ _ id) ?map_id ?sz.
  - split; rewrite -map_comp.
    + rewrite (@eq_map _ _ _ (fun t => t.1.1.2)); first by do 6!case.
      rewrite (z1 _ _ _ (fun x => x.1.2)) ?sz //.
      rewrite (z1 _ _ _ (fun x => x.2)) ?sz //.
      by rewrite (z2 _ _ _ id) ?map_id ?sz.
    + rewrite (@eq_map _ _ _ (fun t => t.1.2)); first by do 6!case.
      rewrite (z1 _ _ _ (fun x => x.2)) ?sz //.
      by rewrite (z2 _ _ _ id) ?map_id ?sz.
    + rewrite (@eq_map _ _ _ (fun t => t.2)); first by do 6!case.
      by rewrite (z2 _ _ _ id) ?map_id ?sz.
Qed.

(** The frame built from columns that lie within the data model. *)
Lemma demo_frame_well_formed (band : float -> string) (n : nat)
    (fs ys : seq Z) (ps us : seq float) :
  size fs = n -> size ys = n -> size ps = n -> size us = n ->
  all (fun f => f \in [:: 0; 1; 2]%Z) fs ->
  all (fun y => y \in [:: 0; 1]%Z) ys ->
  all (fun p => fle 0 p && fle p 1) ps -> all (fun u => fle 0.02 u) us ->
  (forall p, band p \in bands) ->
  exists2 df,
    DataFrame_of_columns
      [seq ("Case-" ++ fmt_02d i)%string | i <- iota 1 n]
      [seq ("DEMO-" ++ str i)%string | i <- iota 1 n]
      fs ys ps us [seq band p | p <- ps] = Ok df
  & [/\ size df = n,
        [seq case_id r | r <- df]
        = [seq ("Case-" ++ fmt_02d i)%string | i <- iota 1 n]
      & all well_formed df].
Proof.
  move=> s1 s2 s3 s4 in_f in_y in_p in_u in_b.
  case: (@DataFrame_of_columns_rows
           [seq ("Case-" ++ fmt_02d i)%string | i <- iota 1 n]
           [seq ("DEMO-" ++ str i)%string | i <- iota 1 n]
           fs ys ps us [seq band p | p <- ps]);
    rewrite ?size_map ?size_iota //.
  move=> df -> [sz ids Ef Ey [Ep Eu Eb]]; exists df => //; split=> //.
  apply/allP => r r_df; rewrite /well_formed.
  have -> : case_id r != "".
    have: case_id r \in [seq case_id r | r <- df] by apply: map_f.
    by rewrite ids => /mapP[i _ ->].
  have -> : fold r \in [:: 0; 1; 2]%Z.
    by apply: (allP in_f); rewrite -Ef; apply: map_f.
  have -> : y_true r \in [:: 0; 1]%Z.
    by apply: (allP in_y); rewrite -Ey; apply: map_f.
  have -> : fle 0 (p_calibrated r) && fle (p_calibrated r) 1.
    by apply: (allP in_p); rewrite -Ep; apply: map_f.
  have -> : fle 0 (uncertainty_std r).
    apply: (@fle_trans 0.02%float) => //.
    by apply: (allP in_u); rewrite -Eu; apply: map_f.
  have: risk_band r \in [seq band p | p <- ps] by rewrite -Eb; apply: map_f.
  by case/mapP => p _ ->; rewrite in_b.
Qed.

Lemma DataLoader_band_of_bands (p : float) : DataLoader.band_of p \in bands.
Proof. exact: (implied_band_bands 0.3 0.5 0.75 p). Qed.

Lemma Utils_band_of_bands (p : float) : Utils.band_of p \in bands.
Proof. exact: (implied_band_bands 0.3 0.6 0.8 p). Qed.

Section Generators.
Variable G : RandomGen.
Hypothesis support : draws_in_support G.

Lemma in_choice (a : seq Z) (p : option (seq float)) (n : nat)
    (s : rng_state G) :
  a != [::] -> all (fun x => x \in a) (draws (rng_choice G a p) n s).1.
Proof. by case: support => ch _ _ ne; apply: all_draws => s'; apply: ch. Qed.

Lemma in_beta (a b : float) (n : nat) (s : rng_state G) :
  all (fun p => fle 0 p && fle p 1) (draws (rng_beta G a b) n s).1.
Proof. by case: support => _ be _; apply: all_draws => s'; apply: be. Qed.

Lemma in_uniform (lo hi : float) (n : nat) (s : rng_state G) :
  fle lo hi -> all (fun u => fle lo u) (draws (rng_uniform G lo hi) n s).1.
Proof.
  case: support => _ _ un le; apply: all_draws => s'.
  by have /andP[] := un lo hi s' le.
Qed.

Lemma DataLoader_generate_demo_data_rows (st0 : rng_state G) :
  exists2 df, (DataLoader.generate_demo_data st0).1 = Ok df
  & [/\ size df = 25,
        [seq case_id r | r <- df]
        = [seq ("Case-" ++ fmt_02d i)%string | i <- iota 1 25]
      & all well_formed df].
Proof.
  rewrite /DataLoader.generate_demo_data.
  have := size_draws (rng_choice G [:: 0; 1; 2]%Z None) 25 (rng_seed G 42).
  have := @in_choice [:: 0; 1; 2]%Z None 25 (rng_seed G 42) isT.
  case: (draws _ _ _) => folds st1 /= in1 sz1.
  have := size_draws
            (rng_choice G [:: 0; 1]%Z (Some [:: 0.15%float; 0.85%float])) 25 st1.
  have := @in_choice [:: 0; 1]%Z (Some [:: 0.15%float; 0.85%float]) 25 st1 isT.
  case: (draws _ _ _) => ys st2 /= in2 sz2.
  have := size_draws (rng_beta G 3%float 4%float) 25 st2.
  have := in_beta 3%float 4%float 25 st2.
  case: (draws _ _ _) => ps st3 /= in3 sz3.
  have := size_draws (rng_uniform G 0.02%float 0.15%float) 25 st3.
  have := @in_uniform 0.02%float 0.15%float 25 st3 isT.
  case: (draws _ _ _) => us st4 /= in4 sz4.
  rewrite (risk_bands_loopE DataLoader.band_of) cat0s.
  exact: (demo_frame_well_formed sz1 sz2 sz3 sz4 in1 in2 in3 in4
            DataLoader_band_of_bands).
Qed.

Lemma Utils_generate_demo_data_rows (st0 : rng_state G) :
  exists2 df, (Utils.generate_demo_data st0).1 = Ok df
  & [/\ size df = 20,
        [seq case_id r | r <- df]
        = [seq ("Case-" ++ fmt_02d i)%string | i <- iota 1 20]
      & all well_formed df].
Proof.
  rewrite /Utils.generate_demo_data.
  have := size_draws (rng_choice G [:: 0; 1; 2]%Z None) 20 (rng_seed G 42).
  have := @in_choice [:: 0; 1; 2]%Z None 20 (rng_seed G 42) isT.
  case: (draws _ _ _) => folds st1 /= in1 sz1.
  have := size_draws
            (rng_choice G [:: 0; 1]%Z (Some [:: 0.1%float; 0.9%float])) 20 st1.
  have := @in_choice [:: 0; 1]%Z (Some [:: 0.1%float; 0.9%float]) 20 st1 isT.
  case: (draws _ _ _) => ys st2 /= in2 sz2.
  case: (rng_random G st2) => x st3.
  have: size (if fgt x 0.5 then draws (rng_beta G 2%float 5%float) 20 st3
              else draws (rng_beta G 5%float 2%float) 20 st3).1 = 20.
    by case: (fgt x 0.5); rewrite size_draws.
  have: all (fun p => fle 0 p && fle p 1)
          (if fgt x 0.5 then draws (rng_beta G 2%float 5%float) 20 st3
           else draws (rng_beta G 5%float 2%float) 20 st3).1.
    by case: (fgt x 0.5); apply: in_beta.
  case: (if fgt x 0.5 then _ else _) => ps st4 /= in3 sz3.
  have := size_draws (rng_uniform G 0.02%float 0.15%float) 20 st4.
  have := @in_uniform 0.02%float 0.15%float 20 st4 isT.
  case: (draws _ _ _) => us st5 /= in4 sz4.
  rewrite (risk_bands_loopE Utils.band_of) cat0s.
  exact: (demo_frame_well_formed sz1 sz2 sz3 sz4 in1 in2 in3 in4
            Utils_band_of_bands).
Qed.

End Generators.

Lemma well_formed_in_range (r : Row) : well_formed r -> values_in_range r.
Proof.
  by rewrite /well_formed /values_in_range => /and5P[_ _ _ /andP[-> ->] /andP[->]].
Qed.

(** X16.  The demo frames lie within the data model: for every generator
    whose draws lie in the support of their distributions ([choice] in
    the given values, [beta] in [0, 1], [uniform(lo, hi)] in [lo, hi]),
    [generate_demo_data] of [data_loader.py] returns 25 rows and that of
    [utils.py] 20 rows, with distinct non-empty case ids, and every row
    has a fold of 0, 1, 2, a class of 0, 1, a probability in [0, 1], a
    non-negative uncertainty and one of the four risk bands. *)
Theorem generate_demo_data_well_formed (G : RandomGen) (st0 : rng_state G) :
  draws_in_support G ->
  (exists2 df, (DataLoader.generate_demo_data st0).1 = Ok df
     & [/\ size df = 25, uniq [seq case_id r | r <- df] & all well_formed df])
  /\ (exists2 df, (Utils.generate_demo_data st0).1 = Ok df
     & [/\ size df = 20, uniq [seq case_id r | r <- df] & all well_formed df]).
Proof.
  move=> support; split.
  - case: (DataLoader_generate_demo_data_rows support st0) => df E [sz ids wf].
    by exists df => //; split=> //; rewrite ids.
  - case: (Utils_generate_demo_data_rows support st0) => df E [sz ids wf].
    by exists df => //; split=> //; rewrite ids.
Qed.

Lemma sample_gen_in_support : draws_in_support sample_gen.
Proof.
  split=> [a p s|a b s|lo hi s le] //=; first by case: a => [|x a] //; rewrite inE eqxx.
  by rewrite le andbT; apply: fle_refl; have /andP[] := fle_notnan le.
Qed.

End DemoModel.

Lemma generate_demo_data_well_formed_witness :
  (exists2 df, (@DataLoader.generate_demo_data sample_gen 0).1 = Ok df
     & [/\ size df = 25, uniq [seq case_id r | r <- df] & all well_formed df])
  /\ (exists2 df, (@Utils.generate_demo_data sample_gen 0).1 = Ok df
     & [/\ size df = 20, uniq [seq case_id r | r <- df] & all well_formed df]).
Proof.
  exact: (@generate_demo_data_well_formed sample_gen 0 sample_gen_in_support).
Defined.

(** ** Demo mode, from the loader to the dashboard *)

Section DemoDashboard.
Import Ui.
Variable G : RandomGen.

(** X17.  Demo mode end to end: for a generator whose draws lie in the
    support of their distributions and a session without the dashboard's
    filter keys, [load_all_data] in demo mode gives a bundle flagged as
    demo with an index of 25 rows; the filter bar of the dashboard, with
    widgets that return their initial values, returns filters under
    which [apply_global_filters] keeps all 25 rows, and the dashboard
    shows 25 cases. *)
Theorem demo_dashboard_shows_all_cases (fs : FileSystem) (results_root : Path)
    (st0 : rng_state G) (session : SessionState) :
  draws_in_support G ->
  (forall key, key \in filter_keys "dashboard" -> ss_get session key = None) ->
  exists bundle df session' filters shown,
    [/\ (DataLoader.load_all_data fs results_root true st0).1 = Ok bundle,
        DataLoader.is_demo bundle /\ DataLoader.index_df bundle = Some df,
        render_global_filter_bar session (Some df) "dashboard"
          (untouched_widgets (init_filter_keys session df "dashboard")
             "dashboard")
        = (session', Returns filters),
        App.apply_global_filters (Some df) filters = Ok df
      & App.page_dashboard (Some df) filters = Some (Ok shown)
        /\ App.n_cases shown = 25].
Proof.
  move=> support fresh.
  case: (DataLoader_generate_demo_data_rows support st0) => df Edf [sz _ wf].
  have ranges : all values_in_range df.
    by apply: sub_all wf; apply: well_formed_in_range.
  have Eid := identity_at_defaults ranges.
  case: df sz Edf {wf ranges} Eid (fresh_widgets df fresh) => [|r s] // sz Edf Eid Ew.
  exists {| DataLoader.index_df := Some (r :: s);
            DataLoader.case_mapping := None;
            DataLoader.metrics_summary := None;
            DataLoader.run_config := None;
            DataLoader.artifacts :=
              [:: ("index_csv", DataLoader.Flag true);
                  ("case_mapping", DataLoader.Flag true);
                  ("case_images", DataLoader.Flag false);
                  ("case_image_count", DataLoader.Count 0);
                  ("metrics_summary", DataLoader.Flag false);
                  ("run_config", DataLoader.Flag false);
                  ("calibration_plots", DataLoader.Flag false);
                  ("roc_curves", DataLoader.Flag false);
                  ("pr_curves", DataLoader.Flag false);
                  ("confusion_matrix", DataLoader.Flag false)];
            DataLoader.is_demo := true |},
         (r :: s),
         (render_global_filter_bar session (Some (r :: s)) "dashboard"
            (default_widgets (r :: s))).1,
         (filters_of_widgets (default_widgets (r :: s))),
         (App.dashboard_values (r :: s)).
  split=> //.
  - rewrite /DataLoader.load_all_data.
    by move: Edf; case: (DataLoader.generate_demo_data st0) => res st /= ->.
  - by rewrite Ew {1}bar_outcome.
  - by rewrite /App.page_dashboard Eid.
Qed.

End DemoDashboard.

Lemma demo_dashboard_shows_all_cases_witness :
  exists bundle df,
    (@DataLoader.load_all_data sample_gen empty_fs [:: "results"] true 0).1
    = Ok bundle
    /\ DataLoader.index_df bundle = Some df.
Proof.
  case: (@demo_dashboard_shows_all_cases sample_gen empty_fs [:: "results"] 0
           [::] sample_gen_in_support (fun _ _ => erefl))
    => bundle [df [_ [_ [_ [E [_ Edf] _ _ _]]]]].
  by exists bundle, df.
Defined.

(** ** The case explorer *)

Section CaseExplorer.
Import AppPages.
Variable str_contains : string -> Py (string -> bool).

Lemma String_leb_total : total String.leb.
Proof. by move=> x y; case: (String.leb_total x y) => ->; rewrite ?orbT. Qed.

Lemma case_ids_ofP (view : DataFrame) :
  [/\ sorted String.leb (case_ids_of view), uniq (case_ids_of view)
    & case_ids_of view =i [seq case_id r | r <- view]].
Proof.
  split.
  - exact: (sort_sorted String_leb_total).
  - by rewrite sort_uniq undup_uniq.
  - by move=> c; rewrite mem_sort mem_undup.
Qed.

Lemma case_data_ofP (view : DataFrame) (c : string) :
  if c \in case_ids_of view
  then exists2 r, case_data_of view c = Shows r & r \in view /\ case_id r = c
  else case_data_of view c = Fails IndexError.
Proof.
  case: (case_ids_ofP view) => _ _ ->; rewrite /case_data_of.
  case E: [seq r <- view | case_id r == c] => [|r t].
    have /hasPn none : ~~ has (fun r => case_id r == c) view.
      by rewrite has_filter E.
    case: mapP => // -[r r_view Ec].
    by have := none r r_view; rewrite Ec eqxx.
  have: r \in [seq r <- view | case_id r == c] by rewrite E inE eqxx.
  rewrite mem_filter => /andP[/eqP Ec r_view].
  by rewrite -Ec map_f //; exists r.
Qed.

(** The explorer's view, when the search does not raise: the filtered
    view, narrowed by the search when a term is given. *)
Lemma explorer_viewE (r0 : Row) (s : DataFrame) (filters : App.Filters)
    (search_term : string) :
  explorer_view str_contains (Some (r0 :: s)) filters search_term
  = Some (let view0 := [seq r <- r0 :: s
                       | FilterSpec.satisfies (filter_state_of filters) r] in
          if search_term != "" then
            match str_contains search_term with
            | Ok found => Ok [seq r <- view0 | found (case_id r)]
            | Raise e => Raise e
            end
          else Ok view0).
Proof. by rewrite /explorer_view apply_global_filtersE. Qed.

(** X18.  Every case offered in the explorer can be shown.  On a non-empty
    index, with no search term or with one the search accepts, the
    explorer's view is a sub-frame of the index (the filtered view,
    narrowed by the search when a term is given); the selectable case ids
    are the case ids of the view, sorted and without duplicates; for each
    of them the detail lookup succeeds and gives the first row of the
    view with that id, a row of the index whose values are present and
    within the filter ranges; for any other id the lookup would raise
    [IndexError].  With a term the search rejects, the page raises what
    the search raises. *)
Theorem page_case_explorer_selection (df : DataFrame) (filters : App.Filters)
    (search_term : string) :
  df != [::] ->
  match (if search_term != "" then str_contains search_term
         else Ok (fun _ => true)) with
  | Raise e =>
      explorer_view str_contains (Some df) filters search_term
      = Some (Raise e)
  | Ok _ =>
      exists2 view,
        explorer_view str_contains (Some df) filters search_term
        = Some (Ok view)
      & [/\ subseq view df,
            sorted String.leb (case_ids_of view) /\ uniq (case_ids_of view),
            case_ids_of view =i [seq case_id r | r <- view],
            forall c, c \in case_ids_of view ->
              exists2 r, case_data_of view c = Shows r
              & [/\ r \in df, case_id r = c & in_view_ranges filters r]
          & forall c, c \notin case_ids_of view ->
              case_data_of view c = Fails IndexError]
  end.
Proof.
  case: df => [|r0 s] // _; rewrite explorer_viewE.
  set view0 := filter _ (r0 :: s).
  have props (view : DataFrame) :
      subseq view view0 ->
      [/\ subseq view (r0 :: s),
          sorted String.leb (case_ids_of view) /\ uniq (case_ids_of view),
          case_ids_of view =i [seq case_id r | r <- view],
          forall c, c \in case_ids_of view ->
            exists2 r, case_data_of view c = Shows r
            & [/\ r \in r0 :: s, case_id r = c & in_view_ranges filters r]
        & forall c, c \notin case_ids_of view ->
            case_data_of view c = Fails IndexError].
    move=> sub0.
    have sub : subseq view (r0 :: s).
      exact: subseq_trans sub0 (filter_subseq _ _).
    case: (case_ids_ofP view) => srt uq mem; split=> //.
    - move=> c c_ids; have := case_data_ofP view c; rewrite c_ids.
      case=> r -> [r_view Ec]; exists r => //; split=> //.
        exact: (mem_subseq sub).
      apply: (allP (view_in_ranges (r0 :: s) filters)).
      exact: (mem_subseq sub0).
    - by move=> c c_out; have := case_data_ofP view c; rewrite (negbTE c_out).
  case: (search_term != ""); last by exists view0 => //; apply: props.
  case: (str_contains search_term) => [found|e] //.
  exists [seq r <- view0 | found (case_id r)] => //.
  by apply: props; apply: filter_subseq.
Qed.

End CaseExplorer.

Lemma page_case_explorer_selection_witness :
  exists2 view,
    AppPages.explorer_view
      (fun term => if term == "(" then Raise ReError
                   else Ok (fun id => term == id))
      (Some sample_index) (filters_of_widgets sample_widgets) "Case-03"
    = Some (Ok view)
  & subseq view sample_index.
Proof.
  case: (@page_case_explorer_selection
           (fun term => if term == "(" then Raise ReError
                        else Ok (fun id => term == id))
           sample_index (filters_of_widgets sample_widgets) "Case-03" isT)
    => view E [sub _ _ _ _].
  by exists view.
Defined.

(** ** The sidebar and the cards *)

Section Sidebar.
Import AppPages.
Variables (fs : FileSystem) (results_root : Path).

(** X19.  The connection status never shows a path and never fails
    silently: the sidebar shows "Connected" exactly in demo mode or on a
    valid folder, and a folder name shown with it is non-empty and has no
    [/], backslash or colon; whenever it shows "Not Connected" it also
    warns with the number of missing required files, which is 1 or 2. *)
Theorem connection_status_shown (demo_mode : bool) :
  match connection_status fs results_root demo_mode with
  | Connected shown =>
      demo_mode || (DataLoader.validate_results_structure fs results_root).1
      /\ forall name, shown = Some name ->
           [&& name != "", ~~ has_char "/"%char name,
               ~~ has_char "092"%char name & ~~ has_char ":"%char name]
  | NotConnected warning =>
      [/\ ~~ demo_mode,
          ~~ (DataLoader.validate_results_structure fs results_root).1
        & exists2 n, warning = Some n
          & (0 < n <= 2)
            && (n == size (DataLoader.validate_results_structure
                             fs results_root).2)]
  end.
Proof.
  rewrite /connection_status; case: demo_mode; first by split=> // name [<-].
  rewrite [~~ false]/= validate_results_structureE.
  set missing := filter _ _.
  have le2 : size missing <= 2.
    by rewrite (leq_trans (size_subseq (filter_subseq _ _))).
  case: missing le2 => [|m ms] /= le2.
    split=> // name; rewrite /get_folder_name.
    by case: ifP => // ok [<-].
  by split=> //; exists (size ms).+1 => //; rewrite le2 eqxx.
Qed.

Lemma check_artifacts_shape :
  let explain_dir := results_root // "explainability_reports" in
  let n := if fs_exists fs explain_dir
           then size (fs_glob fs explain_dir "Case-*.png") else 0 in
  exists b1 b2 b3 b4 b5 b6 b7 b8,
    DataLoader.check_artifacts fs results_root
    = [:: ("index_csv", DataLoader.Flag b1);
          ("case_mapping", DataLoader.Flag b2);
          ("metrics_summary", DataLoader.Flag b3);
          ("run_config", DataLoader.Flag b4);
          ("calibration_plots", DataLoader.Flag b5);
          ("roc_curves", DataLoader.Flag b6);
          ("pr_curves", DataLoader.Flag b7);
          ("confusion_matrix", DataLoader.Flag b8);
          ("case_images", DataLoader.Flag (0 < n));
          ("case_image_count", DataLoader.Count n)].
Proof.
  rewrite /DataLoader.check_artifacts.
  exists (fs_exists fs (results_root // "explainability_reports" // "index.csv")),
         (fs_exists fs (results_root // "explainability_reports"
                          // "case_mapping.csv")),
         (fs_exists fs (results_root // "patient_metrics_summary.csv")),
         (fs_exists fs (results_root // "run_config.json")),
         (fs_exists fs (results_root // "calibration_plots")
          && (0 < size (fs_glob fs (results_root // "calibration_plots")
                          "*.png"))),
         (fs_exists fs (results_root // "roc_curves_patient_level.png")),
         (fs_exists fs (results_root // "pr_curves_patient_level.png")),
         (fs_exists fs (results_root // "confusion_matrices_patient_level.png")).
  by case: (fs_exists fs (results_root // "explainability_reports")).
Qed.

(** X20.  The artifact cards of a folder: there are eight cards, four to a
    row; each card other than "Case Images" reads "Available" or
    "Missing" according to the flag [check_artifacts] computed for it,
    in the colour of that flag; the "Case Images" card reads "<n> images"
    when the folder [explainability_reports] exists and holds [n > 0]
    files matching [Case-*.png], and "Missing" otherwise, never
    "Available"; the ['confusion_matrix'] flag is computed but has no
    card. *)
Theorem render_artifact_cards_of_check :
  let a := DataLoader.check_artifacts fs results_root in
  let cards := Ui.render_artifact_cards a in
  let flag key := if available a key then "Available" else "Missing" in
  let colour (ok : bool) := if ok then "#22543D" else "#742A2A" in
  let explain_dir := results_root // "explainability_reports" in
  let n := if fs_exists fs explain_dir
           then size (fs_glob fs explain_dir "Case-*.png") else 0 in
  [/\ [seq Ui.column c | c <- cards] = [:: 0; 1; 2; 3; 0; 1; 2; 3],
      [seq Ui.label c | c <- cards]
      = [:: "Index CSV"; "Case Mapping"; "Case Images"; "Metrics"; "Config";
            "Calibration"; "ROC Curves"; "PR Curves"],
      [seq Ui.detail c | c <- cards]
      = [:: flag "index_csv"; flag "case_mapping";
            if 0 < n then (str n ++ " images")%string else "Missing";
            flag "metrics_summary"; flag "run_config";
            flag "calibration_plots"; flag "roc_curves"; flag "pr_curves"]
    & [seq Ui.status_color c | c <- cards]
      = [:: colour (available a "index_csv");
            colour (available a "case_mapping"); colour (0 < n);
            colour (available a "metrics_summary");
            colour (available a "run_config");
            colour (available a "calibration_plots");
            colour (available a "roc_curves");
            colour (available a "pr_curves")]].
Proof.
  case: check_artifacts_shape => b1 [b2 [b3 [b4 [b5 [b6 [b7 [b8 ->]]]]]]].
  cbv zeta; move: (if fs_exists fs _ then _ else _) => n.
  by case: n => [|n]; split; reflexivity.
Qed.

End Sidebar.

(** ** The uncertainty meter *)

Section Meter.

Lemma SFltb_nan (a b : spec_float) : sf_is_nan a -> SFltb a b = false.
Proof. SFOrder.by_cases2 a b. Qed.

Lemma flt_nan (x y : float) : PrimFloat.is_nan x -> flt x y = false.
Proof. rewrite is_nanE /flt FloatAxioms.ltb_spec; exact: SFltb_nan. Qed.

(** X21.  The uncertainty meter never overflows: [render_uncertainty_meter]
    fails only with [ZeroDivisionError], and exactly when [max_value] is
    zero; otherwise the width it draws is never above 100 percent, the
    colour is one of green, yellow and red, green exactly below 33
    percent, and a width that is not a number is drawn red. *)
Theorem render_uncertainty_meter_bounded (value max_value : float) :
  match Ui.render_uncertainty_meter value max_value with
  | Fails e => e = ZeroDivisionError /\ PrimFloat.eqb max_value 0
  | Shows (percent, color) =>
      [/\ PrimFloat.eqb max_value 0 = false,
          ~~ flt 100 percent,
          color \in [:: "#48BB78"; "#F6E05E"; "#FC8181"],
          (color == "#48BB78") = flt percent 33
        & PrimFloat.is_nan percent -> color = "#FC8181"]
  end.
Proof.
  rewrite /Ui.render_uncertainty_meter /py_truediv.
  case: (PrimFloat.eqb max_value 0) => //.
  set q := PrimFloat.mul _ _; set percent := py_min _ _.
  have top : ~~ flt 100 percent.
    by rewrite /percent /py_min; case E: (flt 100 q) => //; rewrite E.
  split=> //.
  - by case: (flt percent 33); case: (flt percent 66).
  - by case: (flt percent 33) => //; case: (flt percent 66).
  - by move=> nan; rewrite !(flt_nan _ nan).
Qed.

End Meter.

(** ** The loaders of the two modules *)

Section Loaders.
Variables (fs : FileSystem) (results_root : Path).

(** X22.  The loaders of [utils.py] return what the loaders of
    [data_loader.py] return, for the index, the case mapping, the metrics
    summary and the run configuration alike; the two that print do so
    only for a file that exists and whose read raised, one line naming
    the file, and in that case they return [None]. *)
Theorem utils_loaders_agree :
  [/\ (Utils.load_index_csv fs results_root).1
      = DataLoader.load_index_csv fs results_root,
      (Utils.load_case_mapping fs results_root).1
      = DataLoader.load_case_mapping fs results_root,
      Utils.load_metrics_summary fs results_root
      = DataLoader.load_metrics_summary fs results_root,
      Utils.load_run_config fs results_root
      = DataLoader.load_run_config fs results_root
    & [/\ [seq line.1 | line <- (Utils.load_index_csv fs results_root).2]
          = if fs_exists fs (results_root // "explainability_reports"
                               // "index.csv")
               && ~~ DataLoader.load_index_csv fs results_root
            then [:: "Error loading index.csv: "] else [::]
        & [seq line.1 | line <- (Utils.load_case_mapping fs results_root).2]
          = if fs_exists fs (results_root // "explainability_reports"
                               // "case_mapping.csv")
               && ~~ DataLoader.load_case_mapping fs results_root
            then [:: "Error loading case_mapping.csv: "] else [::]]].
Proof.
  rewrite /Utils.load_index_csv /DataLoader.load_index_csv.
  rewrite /Utils.load_case_mapping /DataLoader.load_case_mapping.
  split=> //; last split.
  - by case: (fs_exists fs _) => //=; case: (fs_read_index fs _).
  - by case: (fs_exists fs _) => //=; case: (fs_read_mapping fs _).
  - by case: (fs_exists fs _) => //=; case: (fs_read_index fs _).
  - by case: (fs_exists fs _) => //=; case: (fs_read_mapping fs _).
Qed.

End Loaders.
